(** * backend/crud.py: the data-access layer, embedded and verified

    The functions of [backend/crud.py] are written as Rocq functions over an
    explicit database state ([Session]).  A table is the list of its rows in
    storage order, a query is a [filter] over that list, [.first()] is the
    head of the filtered list, and a write returns the new state.  Python
    floats are IEEE 754 binary64 values ([spec_float] at precision 53), with
    the exceptions Python raises where the hardware would return a special
    value. *)

From Stdlib Require Import ZArith Bool List String Lia.
From Stdlib Require Import Floats.SpecFloat.
Import ListNotations.
Local Open Scope Z_scope.

(** ** Python exceptions and fallible computations *)

Inductive exn : Type :=
| OverflowError
| ValueError
| ZeroDivisionError.

Inductive result (A : Type) : Type :=
| Ok (a : A)
| Raise (e : exn).

Arguments Ok {A} a.
Arguments Raise {A} e.

Definition bind {A B : Type} (m : result A) (k : A -> result B) : result B :=
  match m with
  | Ok a => k a
  | Raise e => Raise e
  end.

Notation "x <- m ;; k" := (bind m (fun x => k))
  (at level 61, m at next level, right associativity).

(** ** Python floats *)

Module PyFloat.

Definition prec : Z := 53.
Definition emax : Z := 1024.

Definition float : Type := spec_float.

Definition mul : float -> float -> float := SFmul prec emax.
Definition add : float -> float -> float := SFadd prec emax.

Definition is_zero (x : float) : bool :=
  match x with
  | S754_zero _ => true
  | _ => false
  end.

Definition is_finite (x : float) : bool :=
  match x with
  | S754_zero _ | S754_finite _ _ _ => true
  | _ => false
  end.

(** [x / y]: Python raises on a zero divisor instead of returning an
    infinity or a NaN. *)
Definition truediv (x y : float) : result float :=
  if is_zero y then Raise ZeroDivisionError else Ok (SFdiv prec emax x y).

(** [float(n)] for an int [n] that is within the range of a double. *)
Definition of_int (n : Z) : float := binary_normalize prec emax n 0 false.

Definition zero : float := S754_zero false.

(** [x > y] and [x >= y]; both are false when an operand is a NaN. *)
Definition gt (x y : float) : bool := SFltb y x.
Definition ge (x y : float) : bool := SFleb y x.
Definition lt (x y : float) : bool := SFltb x y.
Definition le (x y : float) : bool := SFleb x y.

(** The integer part of [m * 2^e] for a positive mantissa [m]. *)
Definition int_part (m : positive) (e : Z) : Z :=
  if 0 <=? e then Zpos m * 2 ^ e else Zpos m / 2 ^ (- e).

(** [int(x)]: truncation toward zero; raises on infinities and NaN. *)
Definition to_int (x : float) : result Z :=
  match x with
  | S754_nan => Raise ValueError
  | S754_infinity _ => Raise OverflowError
  | S754_zero _ => Ok 0
  | S754_finite s m e => Ok (cond_Zopp s (int_part m e))
  end.


(** The nearest integer to [n / d], ties to the even one ([0 <= n], [0 < d]). *)
Definition round_half_even (n d : Z) : Z :=
  let q := n / d in
  match 2 * (n mod d) ?= d with
  | Lt => q
  | Gt => q + 1
  | Eq => if Z.even q then q else q + 1
  end.

(** The double nearest to the fraction [n / d] ([0 < n], [0 < d]), ties to
    even, with sign [s]: what the decimal-to-double conversion computes. *)
Definition nearest (s : bool) (n d : Z) : float :=
  let '(q, e, l) := SFdiv_core_binary prec emax n 0 d 0 in
  binary_round_aux prec emax s q e l.

(** [round(x, 1)]: CPython writes the exact value of [x] with one digit
    after the point, correctly rounded (ties to even), and reads the decimal
    back as the nearest double.  Infinities, NaN and zeros round to
    themselves. *)
Definition round1 (x : float) : float :=
  match x with
  | S754_finite s m e =>
      let tenths :=
        if 0 <=? e then 10 * Zpos m * 2 ^ e
        else round_half_even (10 * Zpos m) (2 ^ (- e)) in
      if tenths =? 0 then S754_zero s else nearest s tenths 10
  | _ => x
  end.

(** A decimal literal [n / 10^k] ([0 <= n]) read as a double. *)
Definition of_decimal (n : Z) (k : Z) : float :=
  if n =? 0 then zero else nearest false n (10 ^ k).

End PyFloat.

(** [100.0] and [0.0] *)
Definition f100 : PyFloat.float := PyFloat.of_int 100.
Definition f0 : PyFloat.float := PyFloat.zero.

(** ** Enumerations of [schemas] and [models]

    Modelled from the spec: [schemas.py] and [models.py] are not among the
    sources.  Each enumeration has the members the code and the spec name;
    any further member (or a stored value outside the named ones) is kept
    under its name by the last constructor. *)

Inductive TransportMode : Type :=
| ANY
| MODE (name : string).

Inductive ChallengeScope : Type :=
| PERSONAL
| SCOPE (name : string).

Inductive ChallengeCompletionType : Type :=
| AUTO
| MANUAL
| COMPLETION (name : string).

Inductive ChallengeGoalType : Type :=
| CO2_SAVED
| DISTANCE_KM
| TRIP_COUNT
| GOAL (name : string).

Inductive ChallengeStatus : Type :=
| ACTIVE
| COMPLETED
| STATUS (name : string).

Definition mode_eqb (a b : TransportMode) : bool :=
  match a, b with
  | ANY, ANY => true
  | MODE x, MODE y => String.eqb x y
  | _, _ => false
  end.

Definition scope_eqb (a b : ChallengeScope) : bool :=
  match a, b with
  | PERSONAL, PERSONAL => true
  | SCOPE x, SCOPE y => String.eqb x y
  | _, _ => false
  end.

Definition completion_type_eqb (a b : ChallengeCompletionType) : bool :=
  match a, b with
  | AUTO, AUTO | MANUAL, MANUAL => true
  | COMPLETION x, COMPLETION y => String.eqb x y
  | _, _ => false
  end.

Definition goal_type_eqb (a b : ChallengeGoalType) : bool :=
  match a, b with
  | CO2_SAVED, CO2_SAVED | DISTANCE_KM, DISTANCE_KM | TRIP_COUNT, TRIP_COUNT => true
  | GOAL x, GOAL y => String.eqb x y
  | _, _ => false
  end.

Definition status_eqb (a b : ChallengeStatus) : bool :=
  match a, b with
  | ACTIVE, ACTIVE | COMPLETED, COMPLETED => true
  | STATUS x, STATUS y => String.eqb x y
  | _, _ => false
  end.

(** ** Rows

    One module per mapped class, so that a column keeps its name.  A
    timestamp is the integer number of microseconds it denotes; the numeric
    columns the code converts with [float(...)] hold Python floats. *)

Module User.
Record t : Type := mk
  { user_id : Z;
    username : string;
    email : string;
    password_hash : string;
    role : string;
    user_group_id : option Z }.
End User.

Module UserCreate.
Record t : Type := mk
  { username : string;
    email : string;
    password_hash : string;
    role : string;
    user_group_id : option Z }.
End UserCreate.

Module Challenge.
Record t : Type := mk
  { challenge_id : Z;
    title : string;
    description : string;
    scope : ChallengeScope;
    completion_type : ChallengeCompletionType;
    target_mode : TransportMode;
    goal_type : ChallengeGoalType;
    goal_target_value : PyFloat.float;
    start_at : Z;
    end_at : Z;
    reward : Z;
    created_by : Z;
    status : ChallengeStatus }.

Definition with_status (s : ChallengeStatus) (c : t) : t :=
  mk (challenge_id c) (title c) (description c) (scope c) (completion_type c)
     (target_mode c) (goal_type c) (goal_target_value c) (start_at c)
     (end_at c) (reward c) (created_by c) s.
End Challenge.

Module ChallengeMember.
Record t : Type := mk
  { user_id : Z;
    challenge_id : Z;
    is_completed : bool }.

Definition with_is_completed (b : bool) (m : t) : t :=
  mk (user_id m) (challenge_id m) b.

(** Modelled from the spec: the column default of [is_completed], declared
    in [models.py]; a new membership has its completion flag false. *)
Definition is_completed_default : bool := false.
End ChallengeMember.

Module MobilityLog.
Record t : Type := mk
  { log_id : Z;
    user_id : Z;
    mode : TransportMode;
    distance_km : PyFloat.float;
    started_at : Z;
    ended_at : Z;
    co2_saved_g : PyFloat.float;
    points_earned : Z;
    description : option string;
    start_point : option string;
    end_point : option string }.
End MobilityLog.

Module MobilityLogCreate.
Record t : Type := mk
  { user_id : Z;
    mode : TransportMode;
    distance_km : PyFloat.float;
    started_at : Z;
    ended_at : Z;
    description : option string;
    start_point : option string;
    end_point : option string }.
End MobilityLogCreate.

Module CarbonFactor.
Record t : Type := mk
  { factor_id : Z;
    mode : TransportMode;
    g_per_km : PyFloat.float;
    valid_from : Z;
    valid_to : Z }.
End CarbonFactor.

Module CreditsLedger.
Record t : Type := mk
  { entry_id : Z;
    user_id : Z;
    ref_log_id : option Z;
    points : Z;
    reason : string }.
End CreditsLedger.

(** The remaining tables are only deleted from, by [user_id]; their other
    columns are kept as one opaque [payload]. *)

Module GardenWateringLog.
Record t : Type := mk { user_id : Z; payload : Z }.
End GardenWateringLog.

Module UserGarden.
Record t : Type := mk { user_id : Z; payload : Z }.
End UserGarden.

Module UserAchievement.
Record t : Type := mk { user_id : Z; payload : Z }.
End UserAchievement.

Module Notification.
Record t : Type := mk { user_id : Z; payload : Z }.
End Notification.

Module IngestRaw.
Record t : Type := mk { user_id : Z; payload : Z }.
End IngestRaw.


(** ** The database session

    Each table is the list of its rows in storage order.  [user_id_seq] and
    [log_id_seq] are the next values of the auto-increment keys of the users
    and mobility-logs tables. *)

Record Session : Type := mkSession
  { users : list User.t;
    challenges : list Challenge.t;
    challenge_members : list ChallengeMember.t;
    mobility_logs : list MobilityLog.t;
    carbon_factors : list CarbonFactor.t;
    credits_ledger : list CreditsLedger.t;
    garden_watering_logs : list GardenWateringLog.t;
    user_gardens : list UserGarden.t;
    user_achievements : list UserAchievement.t;
    notifications : list Notification.t;
    ingest_raw : list IngestRaw.t;
    user_id_seq : Z;
    log_id_seq : Z }.

Definition set_users (v : list User.t) (db : Session) : Session :=
  mkSession v (challenges db) (challenge_members db) (mobility_logs db)
    (carbon_factors db) (credits_ledger db) (garden_watering_logs db)
    (user_gardens db) (user_achievements db) (notifications db) (ingest_raw db)
    (user_id_seq db) (log_id_seq db).

Definition set_challenges (v : list Challenge.t) (db : Session) : Session :=
  mkSession (users db) v (challenge_members db) (mobility_logs db)
    (carbon_factors db) (credits_ledger db) (garden_watering_logs db)
    (user_gardens db) (user_achievements db) (notifications db) (ingest_raw db)
    (user_id_seq db) (log_id_seq db).

Definition set_challenge_members (v : list ChallengeMember.t) (db : Session) : Session :=
  mkSession (users db) (challenges db) v (mobility_logs db)
    (carbon_factors db) (credits_ledger db) (garden_watering_logs db)
    (user_gardens db) (user_achievements db) (notifications db) (ingest_raw db)
    (user_id_seq db) (log_id_seq db).

Definition set_mobility_logs (v : list MobilityLog.t) (db : Session) : Session :=
  mkSession (users db) (challenges db) (challenge_members db) v
    (carbon_factors db) (credits_ledger db) (garden_watering_logs db)
    (user_gardens db) (user_achievements db) (notifications db) (ingest_raw db)
    (user_id_seq db) (log_id_seq db).

Definition set_credits_ledger (v : list CreditsLedger.t) (db : Session) : Session :=
  mkSession (users db) (challenges db) (challenge_members db) (mobility_logs db)
    (carbon_factors db) v (garden_watering_logs db)
    (user_gardens db) (user_achievements db) (notifications db) (ingest_raw db)
    (user_id_seq db) (log_id_seq db).

Definition set_garden_watering_logs (v : list GardenWateringLog.t) (db : Session) : Session :=
  mkSession (users db) (challenges db) (challenge_members db) (mobility_logs db)
    (carbon_factors db) (credits_ledger db) v
    (user_gardens db) (user_achievements db) (notifications db) (ingest_raw db)
    (user_id_seq db) (log_id_seq db).

Definition set_user_gardens (v : list UserGarden.t) (db : Session) : Session :=
  mkSession (users db) (challenges db) (challenge_members db) (mobility_logs db)
    (carbon_factors db) (credits_ledger db) (garden_watering_logs db)
    v (user_achievements db) (notifications db) (ingest_raw db)
    (user_id_seq db) (log_id_seq db).

Definition set_user_achievements (v : list UserAchievement.t) (db : Session) : Session :=
  mkSession (users db) (challenges db) (challenge_members db) (mobility_logs db)
    (carbon_factors db) (credits_ledger db) (garden_watering_logs db)
    (user_gardens db) v (notifications db) (ingest_raw db)
    (user_id_seq db) (log_id_seq db).

Definition set_notifications (v : list Notification.t) (db : Session) : Session :=
  mkSession (users db) (challenges db) (challenge_members db) (mobility_logs db)
    (carbon_factors db) (credits_ledger db) (garden_watering_logs db)
    (user_gardens db) (user_achievements db) v (ingest_raw db)
    (user_id_seq db) (log_id_seq db).

Definition set_ingest_raw (v : list IngestRaw.t) (db : Session) : Session :=
  mkSession (users db) (challenges db) (challenge_members db) (mobility_logs db)
    (carbon_factors db) (credits_ledger db) (garden_watering_logs db)
    (user_gardens db) (user_achievements db) (notifications db) v
    (user_id_seq db) (log_id_seq db).

Definition set_user_id_seq (v : Z) (db : Session) : Session :=
  mkSession (users db) (challenges db) (challenge_members db) (mobility_logs db)
    (carbon_factors db) (credits_ledger db) (garden_watering_logs db)
    (user_gardens db) (user_achievements db) (notifications db) (ingest_raw db)
    v (log_id_seq db).

Definition set_log_id_seq (v : Z) (db : Session) : Session :=
  mkSession (users db) (challenges db) (challenge_members db) (mobility_logs db)
    (carbon_factors db) (credits_ledger db) (garden_watering_logs db)
    (user_gardens db) (user_achievements db) (notifications db) (ingest_raw db)
    (user_id_seq db) v.

(** [query.filter(p).delete()]: the rows that stay are those [p] rejects. *)
Definition delete_where {A : Type} (p : A -> bool) (rows : list A) : list A :=
  filter (fun r => negb (p r)) rows.

(** [session.commit()] after in-place changes to a mapped object: the object's
    state is written to every row of its primary key. *)
Definition update_where {A : Type} (p : A -> bool) (f : A -> A) (rows : list A) : list A :=
  map (fun r => if p r then f r else r) rows.

(** What [query(func.sum(...)).scalar()] and [query(func.count(...)).scalar()]
    return: SQL NULL ([None]) for the sum of no rows, a number otherwise. *)
Inductive number : Type :=
| Float (x : PyFloat.float)
| Int (n : Z).

Definition sql_sum (xs : list PyFloat.float) : option number :=
  match xs with
  | [] => None
  | x :: rest => Some (Float (fold_left PyFloat.add rest x))
  end.

Definition sql_count {A : Type} (rows : list A) : option number :=
  Some (Int (Z.of_nat (List.length rows))).

(** [float(v)] *)
Definition float_of (v : number) : PyFloat.float :=
  match v with
  | Float x => x
  | Int n => PyFloat.of_int n
  end.

(** [v > 0] for a float [v] *)
Definition positive_float (v : PyFloat.float) : bool := PyFloat.gt v f0.

(** An integer column holds a signed 64-bit integer.  [session.commit()]
    with a pending row whose Python int is outside that range raises
    [OverflowError] when the value is bound, and writes nothing.
    Modelled from the spec: [models.py] is not among the sources, and
    [points_earned] is taken to be such a column. *)
Definition int64_min : Z := - 2 ^ 63.
Definition int64_max : Z := 2 ^ 63 - 1.

Definition integer_column (n : Z) : result Z :=
  if (int64_min <=? n) && (n <=? int64_max) then Ok n else Raise OverflowError.

(** ** User *)

Definition create_user (db : Session) (user : UserCreate.t) : Session * User.t :=
  let db_user :=
    User.mk (user_id_seq db) (UserCreate.username user) (UserCreate.email user)
      (UserCreate.password_hash user) (UserCreate.role user)
      (UserCreate.user_group_id user) in
  (* db.add(db_user); db.commit(); db.refresh(db_user) *)
  let db := set_user_id_seq (user_id_seq db + 1) (set_users (users db ++ [db_user]) db) in
  let default_challenges :=
    filter (fun c => scope_eqb (Challenge.scope c) PERSONAL) (challenges db) in
  (* for challenge in default_challenges: db.add(new_member) *)
  let db :=
    fold_left
      (fun db challenge =>
         let new_member :=
           ChallengeMember.mk (User.user_id db_user) (Challenge.challenge_id challenge)
             ChallengeMember.is_completed_default in
         set_challenge_members (challenge_members db ++ [new_member]) db)
      default_challenges db in
  (db, db_user).

Definition get_user_by_id (db : Session) (user_id : Z) : option User.t :=
  find (fun u => User.user_id u =? user_id) (users db).

Definition delete_user (db : Session) (user_id : Z) : Session * option User.t :=
  match find (fun u => User.user_id u =? user_id) (users db) with
  | None => (db, None)
  | Some user =>
      let db := set_mobility_logs
        (delete_where (fun r => MobilityLog.user_id r =? user_id) (mobility_logs db)) db in
      let db := set_credits_ledger
        (delete_where (fun r => CreditsLedger.user_id r =? user_id) (credits_ledger db)) db in
      let db := set_challenge_members
        (delete_where (fun r => ChallengeMember.user_id r =? user_id) (challenge_members db)) db in
      let db := set_garden_watering_logs
        (delete_where (fun r => GardenWateringLog.user_id r =? user_id) (garden_watering_logs db)) db in
      let db := set_user_gardens
        (delete_where (fun r => UserGarden.user_id r =? user_id) (user_gardens db)) db in
      let db := set_challenges
        (delete_where (fun r => Challenge.created_by r =? user_id) (challenges db)) db in
      let db := set_user_achievements
        (delete_where (fun r => UserAchievement.user_id r =? user_id) (user_achievements db)) db in
      let db := set_notifications
        (delete_where (fun r => Notification.user_id r =? user_id) (notifications db)) db in
      let db := set_ingest_raw
        (delete_where (fun r => IngestRaw.user_id r =? user_id) (ingest_raw db)) db in
      (* db.delete(user): the row of the object's primary key *)
      let db := set_users
        (delete_where (fun r => User.user_id r =? User.user_id user) (users db)) db in
      (db, Some user)
  end.

(** The query has no ORDER BY: when several users match the identifier, the
    row that [.first()] returns is the choice of the database.  The model
    takes the first in storage order. *)
Definition authenticate_user (db : Session) (username password : string) : option User.t :=
  let user :=
    find (fun u => String.eqb (User.username u) username
                   || String.eqb (User.email u) username) (users db) in
  match user with
  | None => None
  | Some u =>
      if negb (String.eqb (User.password_hash u) password) then None else Some u
  end.

(** ** MobilityLog *)

Definition carbon_factor_filter (log : MobilityLogCreate.t) (f : CarbonFactor.t) : bool :=
  mode_eqb (CarbonFactor.mode f) (MobilityLogCreate.mode log)
  && (CarbonFactor.valid_from f <=? MobilityLogCreate.started_at log)
  && (CarbonFactor.valid_to f >=? MobilityLogCreate.ended_at log).

(** The log returned is the row as it was written.  (A database that keeps
    a NaN [distance_km] as NULL hands back [None] in that attribute, a
    value the float column of this model does not have.) *)
Definition create_mobility_log (db : Session) (log : MobilityLogCreate.t)
  : result (Session * MobilityLog.t) :=
  let carbon_factor := find (carbon_factor_filter log) (carbon_factors db) in
  let co2_saved_g :=
    match carbon_factor with
    | None => f0
    | Some f => PyFloat.mul (MobilityLogCreate.distance_km log) (CarbonFactor.g_per_km f)
    end in
  q <- PyFloat.truediv co2_saved_g (PyFloat.of_int 100) ;;
  points_earned <- PyFloat.to_int q ;;
  (* db.add(db_log); db.commit(): the INSERT binds points_earned *)
  points_earned <- integer_column points_earned ;;
  let db_log :=
    MobilityLog.mk (log_id_seq db) (MobilityLogCreate.user_id log)
      (MobilityLogCreate.mode log) (MobilityLogCreate.distance_km log)
      (MobilityLogCreate.started_at log) (MobilityLogCreate.ended_at log)
      co2_saved_g points_earned (MobilityLogCreate.description log)
      (MobilityLogCreate.start_point log) (MobilityLogCreate.end_point log) in
  Ok (set_log_id_seq (log_id_seq db + 1)
        (set_mobility_logs (mobility_logs db ++ [db_log]) db), db_log).

(** ** ChallengeMember *)

Definition member_filter (user_id challenge_id : Z) (m : ChallengeMember.t) : bool :=
  (ChallengeMember.user_id m =? user_id)
  && (ChallengeMember.challenge_id m =? challenge_id).

Definition join_challenge (db : Session) (user_id challenge_id : Z)
  : Session * ChallengeMember.t :=
  let existing_member := find (member_filter user_id challenge_id) (challenge_members db) in
  match existing_member with
  | Some m => (db, m)
  | None =>
      let db_member :=
        ChallengeMember.mk user_id challenge_id ChallengeMember.is_completed_default in
      (set_challenge_members (challenge_members db ++ [db_member]) db, db_member)
  end.

(** ** Challenge progress *)

Definition query_filters (user_id : Z) (challenge : Challenge.t) (l : MobilityLog.t) : bool :=
  (MobilityLog.user_id l =? user_id)
  && (MobilityLog.started_at l >=? Challenge.start_at challenge)
  && (MobilityLog.ended_at l <=? Challenge.end_at challenge)
  && (if negb (mode_eqb (Challenge.target_mode challenge) ANY)
      then mode_eqb (MobilityLog.mode l) (Challenge.target_mode challenge)
      else true).

(** The value of [total_achieved_value] before the [is None] test. *)
Definition achieved_scalar (db : Session) (user_id : Z) (challenge : Challenge.t)
  : option number :=
  let rows := filter (query_filters user_id challenge) (mobility_logs db) in
  match Challenge.goal_type challenge with
  | CO2_SAVED => sql_sum (map MobilityLog.co2_saved_g rows)
  | DISTANCE_KM => sql_sum (map MobilityLog.distance_km rows)
  | TRIP_COUNT => sql_count rows
  | GOAL _ => Some (Float f0)
  end.

Definition calculate_challenge_progress (db : Session) (user_id : Z) (challenge : Challenge.t)
  : result PyFloat.float :=
  let total_achieved_value :=
    match achieved_scalar db user_id challenge with
    | None => Float f0
    | Some v => v
    end in
  progress <-
    (if positive_float (Challenge.goal_target_value challenge)
     then q <- PyFloat.truediv (float_of total_achieved_value)
                 (Challenge.goal_target_value challenge) ;;
          Ok (PyFloat.mul q (PyFloat.of_int 100))
     else Ok f0) ;;
  Ok (PyFloat.round1 progress).

Definition update_challenge_status_if_completed (db : Session) (challenge : Challenge.t)
    (progress : PyFloat.float) (user_id : Z) : Session * Challenge.t :=
  if completion_type_eqb (Challenge.completion_type challenge) AUTO
     && PyFloat.ge progress f100
     && status_eqb (Challenge.status challenge) ACTIVE
  then
    let row_of_challenge :=
      fun r => Challenge.challenge_id r =? Challenge.challenge_id challenge in
    (* challenge.status = COMPLETED; db.add(challenge): the flush writes the
       one attribute that changed to the row of the object, and inserts an
       object that no row stores *)
    let db :=
      match find row_of_challenge (challenges db) with
      | Some _ =>
          set_challenges
            (update_where row_of_challenge (Challenge.with_status COMPLETED)
               (challenges db)) db
      | None =>
          set_challenges (challenges db ++ [Challenge.with_status COMPLETED challenge]) db
      end in
    let member_entry :=
      find (member_filter user_id (Challenge.challenge_id challenge)) (challenge_members db) in
    let db :=
      match member_entry with
      | Some m =>
          set_challenge_members
            (update_where
               (member_filter (ChallengeMember.user_id m) (ChallengeMember.challenge_id m))
               (ChallengeMember.with_is_completed true) (challenge_members db)) db
      | None => db
      end in
    (* db.refresh(challenge): the attributes of the object are read from its row *)
    let challenge :=
      match find row_of_challenge (challenges db) with
      | Some r => r
      | None => Challenge.with_status COMPLETED challenge
      end in
    (db, challenge)
  else (db, challenge).

Definition update_personal_challenge_progress (db : Session) (user_id challenge_id : Z)
    (progress_increment : PyFloat.float) : Session * option ChallengeMember.t :=
  let challenge_member := find (member_filter user_id challenge_id) (challenge_members db) in
  let challenge := find (fun c => Challenge.challenge_id c =? challenge_id) (challenges db) in
  match challenge_member, challenge with
  | Some m, Some _ => (db, Some m)
  | _, _ => (db, None)
  end.

(** ** The remaining functions over these tables *)

(** [query.offset(skip).limit(limit).all()], for [skip] and [limit] that are
    not negative: rows come in table order. *)
Definition paginate {A : Type} (skip limit : nat) (rows : list A) : list A :=
  firstn limit (skipn skip rows).

Definition get_users (db : Session) (skip limit : nat) : list User.t :=
  paginate skip limit (users db).

Definition get_user_by_username (db : Session) (username : string) : option User.t :=
  find (fun u => String.eqb (User.username u) username) (users db).

Definition get_challenge (db : Session) (challenge_id : Z) : option Challenge.t :=
  find (fun c => Challenge.challenge_id c =? challenge_id) (challenges db).

Definition get_challenges (db : Session) (skip limit : nat) : list Challenge.t :=
  paginate skip limit (challenges db).

(** The argument of [update_challenge].  [schemas.ChallengeCreate] is not
    among the sources: its fields are taken to be the ones [create_challenge]
    reads from it.  [challenge.dict(exclude_unset=True)] holds the fields the
    caller provided; a field that was not provided is [None] here. *)
Module ChallengeUpdate.
Record t : Type := mk
  { title : option string;
    description : option string;
    scope : option ChallengeScope;
    completion_type : option ChallengeCompletionType;
    target_mode : option TransportMode;
    goal_type : option ChallengeGoalType;
    goal_target_value : option PyFloat.float;
    start_at : option Z;
    end_at : option Z;
    reward : option Z;
    created_by : option Z }.

Definition nothing : t :=
  mk None None None None None None None None None None None.
End ChallengeUpdate.

(** [setattr(db_challenge, key, value)] for the key of one field, when the
    field was provided. *)
Definition provided {A : Type} (value : option A) (current : A) : A :=
  match value with
  | Some v => v
  | None => current
  end.

(** The loop [for key, value in ...items(): setattr(db_challenge, key, value)]. *)
Definition set_attributes (challenge : ChallengeUpdate.t) (db_challenge : Challenge.t)
  : Challenge.t :=
  Challenge.mk
    (Challenge.challenge_id db_challenge)
    (provided (ChallengeUpdate.title challenge) (Challenge.title db_challenge))
    (provided (ChallengeUpdate.description challenge) (Challenge.description db_challenge))
    (provided (ChallengeUpdate.scope challenge) (Challenge.scope db_challenge))
    (provided (ChallengeUpdate.completion_type challenge)
       (Challenge.completion_type db_challenge))
    (provided (ChallengeUpdate.target_mode challenge) (Challenge.target_mode db_challenge))
    (provided (ChallengeUpdate.goal_type challenge) (Challenge.goal_type db_challenge))
    (provided (ChallengeUpdate.goal_target_value challenge)
       (Challenge.goal_target_value db_challenge))
    (provided (ChallengeUpdate.start_at challenge) (Challenge.start_at db_challenge))
    (provided (ChallengeUpdate.end_at challenge) (Challenge.end_at db_challenge))
    (provided (ChallengeUpdate.reward challenge) (Challenge.reward db_challenge))
    (provided (ChallengeUpdate.created_by challenge) (Challenge.created_by db_challenge))
    (Challenge.status db_challenge).

Definition update_challenge (db : Session) (challenge_id : Z) (challenge : ChallengeUpdate.t)
  : Session * option Challenge.t :=
  match find (fun c => Challenge.challenge_id c =? challenge_id) (challenges db) with
  | Some db_challenge =>
      let updated := set_attributes challenge db_challenge in
      (set_challenges
         (update_where
            (fun r => Challenge.challenge_id r =? Challenge.challenge_id db_challenge)
            (fun _ => updated) (challenges db)) db,
       Some updated)
  | None => (db, None)
  end.

Definition delete_challenge (db : Session) (challenge_id : Z)
  : Session * option Challenge.t :=
  match find (fun c => Challenge.challenge_id c =? challenge_id) (challenges db) with
  | Some db_challenge =>
      (* db.delete(db_challenge): the row of the object's primary key *)
      (set_challenges
         (delete_where
            (fun r => Challenge.challenge_id r =? Challenge.challenge_id db_challenge)
            (challenges db)) db,
       Some db_challenge)
  | None => (db, None)
  end.

Definition leave_challenge (db : Session) (user_id challenge_id : Z)
  : Session * option ChallengeMember.t :=
  match find (member_filter user_id challenge_id) (challenge_members db) with
  | Some db_member =>
      (set_challenge_members
         (delete_where
            (member_filter (ChallengeMember.user_id db_member)
               (ChallengeMember.challenge_id db_member))
            (challenge_members db)) db,
       Some db_member)
  | None => (db, None)
  end.

(** ** Calls that write, and the state each one leaves

    A call that raises leaves the state as it was: [create_mobility_log]
    raises in [int()], before anything is added to the session, or when the
    commit binds [points_earned], before the row is written. *)

Inductive call : Type :=
| CreateUser (user : UserCreate.t)
| DeleteUser (user_id : Z)
| CreateMobilityLog (log : MobilityLogCreate.t)
| UpdateChallenge (challenge_id : Z) (challenge : ChallengeUpdate.t)
| DeleteChallenge (challenge_id : Z)
| JoinChallenge (user_id challenge_id : Z)
| LeaveChallenge (user_id challenge_id : Z)
| UpdateChallengeStatusIfCompleted (challenge : Challenge.t) (progress : PyFloat.float)
    (user_id : Z)
| UpdatePersonalChallengeProgress (user_id challenge_id : Z)
    (progress_increment : PyFloat.float).

Definition run (c : call) (db : Session) : Session :=
  match c with
  | CreateUser user => fst (create_user db user)
  | DeleteUser user_id => fst (delete_user db user_id)
  | CreateMobilityLog log =>
      match create_mobility_log db log with
      | Ok (db', _) => db'
      | Raise _ => db
      end
  | UpdateChallenge challenge_id challenge =>
      fst (update_challenge db challenge_id challenge)
  | DeleteChallenge challenge_id => fst (delete_challenge db challenge_id)
  | JoinChallenge user_id challenge_id => fst (join_challenge db user_id challenge_id)
  | LeaveChallenge user_id challenge_id => fst (leave_challenge db user_id challenge_id)
  | UpdateChallengeStatusIfCompleted challenge progress user_id =>
      fst (update_challenge_status_if_completed db challenge progress user_id)
  | UpdatePersonalChallengeProgress user_id challenge_id progress_increment =>
      fst (update_personal_challenge_progress db user_id challenge_id progress_increment)
  end.

(** The keys of a well-formed state: the primary keys of users, challenges
    and mobility logs are unique, and the keys handed out so far are below
    the next value of their sequence. *)
Definition keys_ok (db : Session) : Prop :=
  (forall u, In u (users db) -> User.user_id u < user_id_seq db)
  /\ NoDup (map User.user_id (users db))
  /\ (forall l, In l (mobility_logs db) -> MobilityLog.log_id l < log_id_seq db)
  /\ NoDup (map MobilityLog.log_id (mobility_logs db))
  /\ NoDup (map Challenge.challenge_id (challenges db)).

(** No row of any table refers to the user id [user_id]. *)
Definition unused_user_id (db : Session) (user_id : Z) : Prop :=
  (forall r, In r (users db) -> User.user_id r <> user_id)
  /\ (forall r, In r (challenges db) -> Challenge.created_by r <> user_id)
  /\ (forall r, In r (challenge_members db) -> ChallengeMember.user_id r <> user_id)
  /\ (forall r, In r (mobility_logs db) -> MobilityLog.user_id r <> user_id)
  /\ (forall r, In r (credits_ledger db) -> CreditsLedger.user_id r <> user_id)
  /\ (forall r, In r (garden_watering_logs db) -> GardenWateringLog.user_id r <> user_id)
  /\ (forall r, In r (user_gardens db) -> UserGarden.user_id r <> user_id)
  /\ (forall r, In r (user_achievements db) -> UserAchievement.user_id r <> user_id)
  /\ (forall r, In r (notifications db) -> Notification.user_id r <> user_id)
  /\ (forall r, In r (ingest_raw db) -> IngestRaw.user_id r <> user_id).

(** A sequence of calls, run in order. *)
Definition run_all (cs : list call) (db : Session) : Session :=
  fold_left (fun db c => run c db) cs db.

(** The calls that can add or remove a mobility log of the user [user_id]:
    a log created for the user, and the deletion of the user. *)
Definition touches_logs_of (user_id : Z) (c : call) : bool :=
  match c with
  | CreateMobilityLog log => MobilityLogCreate.user_id log =? user_id
  | DeleteUser deleted => deleted =? user_id
  | _ => false
  end.

(** ** States named by the properties below *)

(** The state [delete_user] leaves for an existing user: every table that
    refers to a user has lost the rows of [user_id], and only those; the
    carbon factors and the key sequences are as before. *)
Definition without_user (db : Session) (user_id : Z) : Session :=
  mkSession
    (delete_where (fun r => User.user_id r =? user_id) (users db))
    (delete_where (fun r => Challenge.created_by r =? user_id) (challenges db))
    (delete_where (fun r => ChallengeMember.user_id r =? user_id) (challenge_members db))
    (delete_where (fun r => MobilityLog.user_id r =? user_id) (mobility_logs db))
    (carbon_factors db)
    (delete_where (fun r => CreditsLedger.user_id r =? user_id) (credits_ledger db))
    (delete_where (fun r => GardenWateringLog.user_id r =? user_id) (garden_watering_logs db))
    (delete_where (fun r => UserGarden.user_id r =? user_id) (user_gardens db))
    (delete_where (fun r => UserAchievement.user_id r =? user_id) (user_achievements db))
    (delete_where (fun r => Notification.user_id r =? user_id) (notifications db))
    (delete_where (fun r => IngestRaw.user_id r =? user_id) (ingest_raw db))
    (user_id_seq db) (log_id_seq db).

(** The row [create_mobility_log] inserts for [log], given the two derived
    values. *)
Definition logged (db : Session) (log : MobilityLogCreate.t)
    (co2_saved_g : PyFloat.float) (points_earned : Z) : MobilityLog.t :=
  MobilityLog.mk (log_id_seq db) (MobilityLogCreate.user_id log)
    (MobilityLogCreate.mode log) (MobilityLogCreate.distance_km log)
    (MobilityLogCreate.started_at log) (MobilityLogCreate.ended_at log)
    co2_saved_g points_earned (MobilityLogCreate.description log)
    (MobilityLogCreate.start_point log) (MobilityLogCreate.end_point log).

(** The state after the insertion of [row]. *)
Definition with_log (db : Session) (row : MobilityLog.t) : Session :=
  set_log_id_seq (log_id_seq db + 1) (set_mobility_logs (mobility_logs db ++ [row]) db).

(** A log counts toward [challenge] for [user_id]: it is the user's, it lies
    within the challenge window, and its mode is the target mode unless the
    target is the wildcard [ANY]. *)
Definition counts_for (user_id : Z) (challenge : Challenge.t) (l : MobilityLog.t) : Prop :=
  MobilityLog.user_id l = user_id
  /\ Challenge.start_at challenge <= MobilityLog.started_at l
  /\ MobilityLog.ended_at l <= Challenge.end_at challenge
  /\ (Challenge.target_mode challenge = ANY
      \/ MobilityLog.mode l = Challenge.target_mode challenge).

(** The sum of a column, in row order, with the sum of no rows read as zero. *)
Definition sum_or_zero (xs : list PyFloat.float) : PyFloat.float :=
  match xs with
  | [] => f0
  | x :: rest => fold_left PyFloat.add rest x
  end.

(** The achieved value of a challenge, as a float: the aggregate its goal
    type selects over the rows [rows] that count. *)
Definition achieved (goal_type : ChallengeGoalType) (rows : list MobilityLog.t)
  : PyFloat.float :=
  match goal_type with
  | CO2_SAVED => sum_or_zero (map MobilityLog.co2_saved_g rows)
  | DISTANCE_KM => sum_or_zero (map MobilityLog.distance_km rows)
  | TRIP_COUNT => PyFloat.of_int (Z.of_nat (List.length rows))
  | GOAL _ => f0
  end.

(** The percentage as the code computes it: the quotient first, then times
    [100], each operation rounded to binary64, then [round(_, 1)]. *)
Definition progress_of (achieved target : PyFloat.float) : PyFloat.float :=
  PyFloat.round1 (PyFloat.mul (SFdiv PyFloat.prec PyFloat.emax achieved target) f100).

(** The percentage in the order the property of the specification writes it,
    [round(100 * achieved / target, 1)], in binary64. *)
Definition progress_as_written (achieved target : PyFloat.float) : PyFloat.float :=
  PyFloat.round1 (SFdiv PyFloat.prec PyFloat.emax (PyFloat.mul f100 achieved) target).

(** The same percentage in exact arithmetic, for whole numbers [achieved] and
    [target > 0]: the number of tenths nearest to [100 * achieved / target]. *)
Definition exact_tenths (achieved target : Z) : Z :=
  PyFloat.round_half_even (1000 * achieved) target.

(** The challenges after the status COMPLETED was written for [challenge]:
    the rows of its id hold the status, or, when no row has its id, the
    completed challenge is a new row. *)
Definition completed_challenges (db : Session) (challenge : Challenge.t)
  : list Challenge.t :=
  match find (fun r => Challenge.challenge_id r =? Challenge.challenge_id challenge)
          (challenges db) with
  | Some _ =>
      update_where (fun r => Challenge.challenge_id r =? Challenge.challenge_id challenge)
        (Challenge.with_status COMPLETED) (challenges db)
  | None => challenges db ++ [Challenge.with_status COMPLETED challenge]
  end.

(** The value of [co2_saved_g] that [create_mobility_log] computes for
    [log]: zero without a carbon factor, else distance times rate. *)
Definition co2_saved_of (db : Session) (log : MobilityLogCreate.t) : PyFloat.float :=
  match find (carbon_factor_filter log) (carbon_factors db) with
  | None => f0
  | Some f => PyFloat.mul (MobilityLogCreate.distance_km log) (CarbonFactor.g_per_km f)
  end.

(** ** Concrete databases and rows used by the examples below *)

Definition empty_db : Session :=
  mkSession [] [] [] [] [] [] [] [] [] [] [] 1 1.

Definition bike : TransportMode := MODE "BIKE".

(** A challenge of the given goal type and target, open to every mode, over
    the window [0, 1000]. *)
Definition sample_challenge (goal : ChallengeGoalType) (target : PyFloat.float)
  : Challenge.t :=
  Challenge.mk 1 "ride" "" PERSONAL AUTO ANY goal target 0 1000 10 1 ACTIVE.

(** One carbon factor, for bikes, valid over [0, 1000], at the given rate. *)
Definition bike_factor (g_per_km : PyFloat.float) : CarbonFactor.t :=
  CarbonFactor.mk 1 bike g_per_km 0 1000.

Definition db_with_factor (g_per_km : PyFloat.float) : Session :=
  mkSession [] [] [] [] [bike_factor g_per_km] [] [] [] [] [] [] 1 1.

(** A bike ride of user 1 over [10, 20], of the given distance. *)
Definition ride (distance_km : PyFloat.float) : MobilityLogCreate.t :=
  MobilityLogCreate.mk 1 bike distance_km 10 20 None None None.


(** [n] bike rides of user 1 within [10, 20], each of [distance_km] km. *)
Definition rides (n : nat) (distance_km : PyFloat.float) : list MobilityLog.t :=
  map (fun i => MobilityLog.mk (Z.of_nat i) 1 bike distance_km 10 20 f0 0 None None None)
    (List.seq 1 n).

Definition db_with_rides (n : nat) (distance_km : PyFloat.float) : Session :=
  mkSession [] [] [] (rides n distance_km) [] [] [] [] [] [] [] 1 (Z.of_nat n + 1).

Definition infinity : PyFloat.float := S754_infinity false.

Definition ann : UserCreate.t := UserCreate.mk "ann" "ann@example.org" "pw" "USER" None.

(** The state with one challenge and nothing else. *)
Definition db_with_challenge (c : Challenge.t) : Session :=
  set_challenges [c] empty_db.

(** A challenge that is completed. *)
Definition finished_challenge : Challenge.t :=
  Challenge.with_status COMPLETED (sample_challenge TRIP_COUNT (PyFloat.of_int 5)).

(** An update that provides a title only. *)
Definition retitle : ChallengeUpdate.t :=
  ChallengeUpdate.mk (Some "ride more"%string) None None None None None None None None None None.

(** * Properties *)

(** ** Queries over a table *)

Section Tables.

Context {A : Type}.
Variable p : A -> bool.

Lemma find_none_all (l : list A) :
  (forall x, In x l -> p x = false) -> find p l = None.
Proof.
  induction l as [|a l IH]; intros H; simpl.
  - reflexivity.
  - rewrite (H a (or_introl eq_refl)). apply IH. intros x Hx. apply H. now right.
Qed.

(** [.first()] returns [x] exactly when [x] passes the filter and no earlier
    row does. *)
Lemma find_first (l : list A) (x : A) :
  find p l = Some x <->
  exists l1 l2, l = l1 ++ x :: l2 /\ (forall y, In y l1 -> p y = false) /\ p x = true.
Proof.
  split.
  - induction l as [|a l IH]; simpl; [discriminate|].
    destruct (p a) eqn:Ea.
    + intros [= ->]. exists [], l. repeat split; auto. intros y [].
    + intros H. destruct (IH H) as (l1 & l2 & -> & Hl1 & Hx).
      exists (a :: l1), l2. repeat split; auto.
      intros y [<-|Hy]; auto.
  - intros (l1 & l2 & -> & Hl1 & Hx).
    induction l1 as [|a l1 IH]; simpl.
    + now rewrite Hx.
    + rewrite (Hl1 a (or_introl eq_refl)). apply IH. intros y Hy. apply Hl1. now right.
Qed.

Lemma find_some_exists (l : list A) :
  (exists x, In x l /\ p x = true) -> exists x, find p l = Some x.
Proof.
  intros (x & Hin & Hp). destruct (find p l) eqn:E; [eauto|].
  rewrite (find_none _ _ E x Hin) in Hp. discriminate.
Qed.

Lemma delete_where_In (l : list A) (x : A) :
  In x (delete_where p l) <-> In x l /\ p x = false.
Proof.
  unfold delete_where. rewrite filter_In. now rewrite negb_true_iff.
Qed.

Lemma delete_where_none (l : list A) :
  forall x, In x (delete_where p l) -> p x = false.
Proof. intros x Hx. now apply delete_where_In in Hx. Qed.

Lemma filter_none_length (l : list A) :
  (forall x, In x l -> p x = false) -> List.length (filter p l) = 0%nat.
Proof.
  induction l as [|a l IH]; intros H; simpl; [reflexivity|].
  rewrite (H a (or_introl eq_refl)). apply IH. intros x Hx. apply H. now right.
Qed.

End Tables.

Lemma update_where_length {A : Type} (p : A -> bool) (f : A -> A) (l : list A) :
  List.length (update_where p f l) = List.length l.
Proof. apply length_map. Qed.

Lemma update_where_In {A : Type} (p : A -> bool) (f : A -> A) (l : list A) (y : A) :
  In y (update_where p f l) <->
  exists x, In x l /\ y = (if p x then f x else x).
Proof.
  unfold update_where. rewrite in_map_iff. split; intros (x & H1 & H2); exists x; auto.
Qed.

(** ** Enumerations: the boolean tests decide equality *)

Lemma mode_eqb_eq (a b : TransportMode) : mode_eqb a b = true <-> a = b.
Proof.
  destruct a, b; simpl; try (split; (discriminate || reflexivity)).
  rewrite String.eqb_eq. split; [now intros ->|now intros [= ->]].
Qed.

Lemma completion_type_eqb_eq (a b : ChallengeCompletionType) :
  completion_type_eqb a b = true <-> a = b.
Proof.
  destruct a, b; simpl; try (split; (discriminate || reflexivity)).
  rewrite String.eqb_eq. split; [now intros ->|now intros [= ->]].
Qed.

Lemma status_eqb_eq (a b : ChallengeStatus) : status_eqb a b = true <-> a = b.
Proof.
  destruct a, b; simpl; try (split; (discriminate || reflexivity)).
  rewrite String.eqb_eq. split; [now intros ->|now intros [= ->]].
Qed.

Lemma scope_eqb_eq (a b : ChallengeScope) : scope_eqb a b = true <-> a = b.
Proof.
  destruct a, b; simpl; try (split; (discriminate || reflexivity)).
  rewrite String.eqb_eq. split; [now intros ->|now intros [= ->]].
Qed.

Lemma member_filter_spec (u c : Z) (m : ChallengeMember.t) :
  member_filter u c m = true <->
  ChallengeMember.user_id m = u /\ ChallengeMember.challenge_id m = c.
Proof. unfold member_filter. rewrite andb_true_iff, !Z.eqb_eq. tauto. Qed.

(** ** authenticate_user *)

Lemma identifier_test (ident : string) (u : User.t) :
  String.eqb (User.username u) ident || String.eqb (User.email u) ident = true <->
  User.username u = ident \/ User.email u = ident.
Proof. now rewrite orb_true_iff, !String.eqb_eq. Qed.

Lemma identifier_test_false (ident : string) (u : User.t) :
  String.eqb (User.username u) ident || String.eqb (User.email u) ident = false <->
  User.username u <> ident /\ User.email u <> ident.
Proof. now rewrite orb_false_iff, !String.eqb_neq. Qed.

(** C8.  [authenticate_user] returns a user only when that user is a row of
    the table whose username or email equals the identifier and whose stored
    credential equals the supplied one.  It returns [None] when no user
    matches the identifier, and when the credential of every user that
    matches differs.  When one user is the only match of the identifier, the
    result is that user if the stored credential equals the supplied one,
    and [None] if it differs.  When several users match, one of them is
    returned as soon as all of them have the supplied credential.  Nothing
    here depends on which of several matching rows the query returns. *)
Theorem authenticate_user_spec (db : Session) (identifier credential : string) :
  (forall u,
      authenticate_user db identifier credential = Some u ->
      In u (users db)
      /\ (User.username u = identifier \/ User.email u = identifier)
      /\ User.password_hash u = credential)
  /\ ((forall v, In v (users db) ->
                 User.username v <> identifier /\ User.email v <> identifier) ->
      authenticate_user db identifier credential = None)
  /\ ((forall v, In v (users db) ->
                 User.username v = identifier \/ User.email v = identifier ->
                 User.password_hash v <> credential) ->
      authenticate_user db identifier credential = None)
  /\ (forall u,
         In u (users db) ->
         User.username u = identifier \/ User.email u = identifier ->
         (forall v, In v (users db) ->
                    User.username v = identifier \/ User.email v = identifier ->
                    v = u) ->
         (User.password_hash u = credential ->
          authenticate_user db identifier credential = Some u)
         /\ (User.password_hash u <> credential ->
             authenticate_user db identifier credential = None))
  /\ ((exists u, In u (users db)
                 /\ (User.username u = identifier \/ User.email u = identifier)) ->
      (forall v, In v (users db) ->
                 User.username v = identifier \/ User.email v = identifier ->
                 User.password_hash v = credential) ->
      exists u, authenticate_user db identifier credential = Some u).
Proof.
  unfold authenticate_user.
  set (p := fun u => String.eqb (User.username u) identifier
                     || String.eqb (User.email u) identifier).
  assert (Hfound : forall w, find p (users db) = Some w ->
                             In w (users db)
                             /\ (User.username w = identifier \/ User.email w = identifier)).
  { intros w E. apply find_some in E. destruct E as [Hin E]. split; [assumption|].
    now apply identifier_test. }
  assert (Hsome : (exists u, In u (users db)
                             /\ (User.username u = identifier \/ User.email u = identifier)) ->
                  exists w, find p (users db) = Some w).
  { intros (u & Hin & Hu). apply find_some_exists. exists u. split; [assumption|].
    now apply identifier_test. }
  split; [|split; [|split; [|split]]].
  - intros u. destruct (find p (users db)) as [w|] eqn:E; [|discriminate].
    destruct (String.eqb (User.password_hash w) credential) eqn:Ep; simpl; [|discriminate].
    intros [= <-]. destruct (Hfound w eq_refl) as [Hin Hw].
    split; [assumption|]. split; [assumption|]. now apply String.eqb_eq.
  - intros Hnone. rewrite find_none_all; [reflexivity|].
    intros v Hv. now apply identifier_test_false, Hnone.
  - intros Hdiff. destruct (find p (users db)) as [w|] eqn:E; [|reflexivity].
    destruct (Hfound w eq_refl) as [Hin Hw].
    pose proof (Hdiff w Hin Hw) as Hne. apply String.eqb_neq in Hne. now rewrite Hne.
  - intros u Hin Hu Honly.
    destruct (Hsome (ex_intro _ u (conj Hin Hu))) as [w E]. rewrite E.
    destruct (Hfound w E) as [Hinw Hw]. rewrite (Honly w Hinw Hw). split.
    + intros Hc. apply String.eqb_eq in Hc. now rewrite Hc.
    + intros Hc. apply String.eqb_neq in Hc. now rewrite Hc.
  - intros Hex Hall. destruct (Hsome Hex) as [w E]. rewrite E.
    destruct (Hfound w E) as [Hinw Hw].
    pose proof (Hall w Hinw Hw) as Hc. apply String.eqb_eq in Hc. rewrite Hc.
    now exists w.
Qed.

(** ** update_personal_challenge_progress *)

(** C9.  [update_personal_challenge_progress] leaves the database as it was
    and does not depend on [progress_increment]; it returns [None] when no
    membership row exists for the pair or no challenge has the given id, and
    otherwise the membership row the query finds, which is a row of the
    unchanged table. *)
Theorem update_personal_challenge_progress_frame
    (db : Session) (user_id challenge_id : Z) (progress_increment : PyFloat.float) :
  fst (update_personal_challenge_progress db user_id challenge_id progress_increment) = db
  /\ (forall other_increment,
         update_personal_challenge_progress db user_id challenge_id other_increment
         = update_personal_challenge_progress db user_id challenge_id progress_increment)
  /\ ((forall m, In m (challenge_members db) ->
                 ~ (ChallengeMember.user_id m = user_id
                    /\ ChallengeMember.challenge_id m = challenge_id))
      \/ (forall c, In c (challenges db) -> Challenge.challenge_id c <> challenge_id) ->
      snd (update_personal_challenge_progress db user_id challenge_id progress_increment)
      = None)
  /\ (forall m,
         find (member_filter user_id challenge_id) (challenge_members db) = Some m ->
         (exists c, In c (challenges db) /\ Challenge.challenge_id c = challenge_id) ->
         snd (update_personal_challenge_progress db user_id challenge_id progress_increment)
         = Some m
         /\ In m (challenge_members db)
         /\ ChallengeMember.user_id m = user_id
         /\ ChallengeMember.challenge_id m = challenge_id).
Proof.
  unfold update_personal_challenge_progress.
  repeat split.
  - destruct (find _ (challenge_members db)); [destruct (find _ (challenges db))|]; reflexivity.
  - intros [Hm|Hc].
    + rewrite (find_none_all (member_filter user_id challenge_id)); [reflexivity|].
      intros m Hin. destruct (member_filter user_id challenge_id m) eqn:E; [|reflexivity].
      apply member_filter_spec in E. now destruct (Hm m Hin).
    + rewrite (find_none_all (fun c => Challenge.challenge_id c =? challenge_id)
                 (challenges db)).
      * now destruct (find _ (challenge_members db)).
      * intros c Hin. apply Z.eqb_neq. now apply Hc.
  - destruct H0 as (c & Hin & Hid).
    rewrite H.
    destruct (find_some_exists (fun c => Challenge.challenge_id c =? challenge_id)
                (challenges db)) as [c' ->]; [|reflexivity].
    exists c. split; [assumption|]. now apply Z.eqb_eq.
  - apply find_some in H. tauto.
  - apply find_some in H. destruct H as [_ H]. now apply member_filter_spec in H.
  - apply find_some in H. destruct H as [_ H]. now apply member_filter_spec in H.
Qed.

(** ** Python floats: comparisons and the sign of a result *)

Lemma SFcompare_antisym (x y : spec_float) :
  SFcompare y x =
  match SFcompare x y with
  | Some c => Some (CompOpp c)
  | None => None
  end.
Proof.
  destruct x as [sx|sx| |sx mx ex], y as [sy|sy| |sy my ey]; simpl;
    try reflexivity; try (destruct sx; reflexivity); try (destruct sy; reflexivity);
    try (destruct sx, sy; reflexivity).
  destruct sx, sy; try reflexivity;
    rewrite (Z.compare_antisym ex ey); destruct (ex ?= ey); simpl; try reflexivity;
    now rewrite (Pos.compare_cont_antisym mx my Eq).
Qed.

(** [x < y] excludes [x >= y]. *)
Lemma lt_not_ge (x y : PyFloat.float) :
  PyFloat.lt x y = true -> PyFloat.ge x y = false.
Proof.
  unfold PyFloat.lt, PyFloat.ge, SFltb, SFleb. rewrite (SFcompare_antisym x y).
  destruct (SFcompare x y) as [[]|]; simpl; congruence.
Qed.

(** [v > 0] holds for the positive finite floats and for [+inf] only. *)
Lemma positive_float_cases (v : PyFloat.float) :
  positive_float v = true ->
  (exists m e, v = S754_finite false m e) \/ v = S754_infinity false.
Proof.
  destruct v as [s|s| |s m e]; simpl; try discriminate.
  - destruct s; [discriminate|]. now right.
  - destruct s; [discriminate|]. left. now exists m, e.
Qed.

Lemma positive_float_not_zero (v : PyFloat.float) :
  positive_float v = true -> PyFloat.is_zero v = false.
Proof.
  intros H. destruct (positive_float_cases v H) as [(m & e & ->)| ->]; reflexivity.
Qed.










(** ** Python floats: the range of a result *)

Lemma digits2_pos_size (p : positive) : digits2_pos p = Pos.size p.
Proof. induction p; simpl; congruence. Qed.

Lemma Zdigits2_log2 (p : positive) : Zdigits2 (Zpos p) = Z.log2 (Zpos p) + 1.
Proof.
  simpl. rewrite digits2_pos_size. destruct p; simpl; try reflexivity; lia.
Qed.

Lemma Zdigits2_nonneg (z : Z) : 0 <= Zdigits2 z.
Proof. destruct z; simpl; lia. Qed.

Lemma Zdigits2_bound (z : Z) : 0 <= z -> z < 2 ^ Zdigits2 z.
Proof.
  intros H. destruct z as [|p|p]; [simpl; lia| |lia].
  rewrite Zdigits2_log2. apply Z.log2_spec. lia.
Qed.

Lemma Zdigits2_le_pow2 (z k : Z) : 0 <= z -> 0 <= k -> z < 2 ^ k -> Zdigits2 z <= k.
Proof.
  intros Hz Hk H. destruct z as [|p|p]; [simpl; lia| |lia].
  rewrite Zdigits2_log2.
  assert (Z.log2 (Zpos p) < k); [|lia].
  apply Z.log2_lt_pow2; lia.
Qed.

Lemma Zdigits2_mono (a b : Z) : 0 <= a <= b -> Zdigits2 a <= Zdigits2 b.
Proof.
  intros [Ha Hab]. apply Zdigits2_le_pow2; auto using Zdigits2_nonneg.
  pose proof (Zdigits2_bound b). lia.
Qed.















(** ** calculate_challenge_progress: a goal type outside the three handled *)

(** C10.  When [goal_type] is none of [CO2_SAVED], [DISTANCE_KM] and
    [TRIP_COUNT], [calculate_challenge_progress] returns [0.0], whatever the
    logs, the user and [goal_target_value] are. *)
Theorem calculate_challenge_progress_other_goal
    (db : Session) (user_id : Z) (challenge : Challenge.t) (name : string) :
  Challenge.goal_type challenge = GOAL name ->
  calculate_challenge_progress db user_id challenge = Ok f0.
Proof.
  intros Hg. unfold calculate_challenge_progress, achieved_scalar. rewrite Hg.
  destruct (positive_float (Challenge.goal_target_value challenge)) eqn:Hp.
  - destruct (positive_float_cases _ Hp) as [(m & e & ->)| ->]; reflexivity.
  - reflexivity.
Qed.

Lemma calculate_challenge_progress_other_goal_witness :
  Challenge.goal_type (sample_challenge (GOAL "STREAK") (PyFloat.of_int 5)) = GOAL "STREAK"
  /\ calculate_challenge_progress empty_db 1
       (sample_challenge (GOAL "STREAK") (PyFloat.of_int 5)) = Ok f0.
Proof.
  split; [reflexivity|].
  apply (calculate_challenge_progress_other_goal empty_db 1 _ "STREAK"). reflexivity.
Defined.

(** ** update_challenge_status_if_completed *)

Lemma update_where_none {A : Type} (p : A -> bool) (f : A -> A) (l : list A) :
  (forall x, In x l -> p x = false) -> update_where p f l = l.
Proof.
  unfold update_where. induction l as [|a l IH]; intros H; simpl; [reflexivity|].
  rewrite (H a (or_introl eq_refl)). f_equal. apply IH. intros x Hx. apply H. now right.
Qed.

Lemma set_challenge_members_same (db : Session) :
  set_challenge_members (challenge_members db) db = db.
Proof. now destruct db. Qed.

(** The first row that passes, after an update of the rows that pass that
    keeps them passing: the update of the first row that passed. *)
Lemma find_update_where_map {A : Type} (p : A -> bool) (f : A -> A) (l : list A) :
  (forall r, p r = true -> p (f r) = true) ->
  find p (update_where p f l) = option_map f (find p l).
Proof.
  intros H. unfold update_where. induction l as [|a l IH]; simpl; [reflexivity|].
  destruct (p a) eqn:E.
  - now rewrite (H a E).
  - rewrite E. exact IH.
Qed.

Lemma find_app_none {A : Type} (p : A -> bool) (l1 l2 : list A) :
  find p l1 = None -> find p (l1 ++ l2) = find p l2.
Proof.
  induction l1 as [|a l1 IH]; simpl; [reflexivity|].
  destruct (p a); [discriminate|]. exact IH.
Qed.

(** The state and the result of a completion. *)
Lemma completed_state (db : Session) (challenge : Challenge.t) (progress : PyFloat.float)
    (user_id : Z) :
  Challenge.completion_type challenge = AUTO ->
  Challenge.status challenge = ACTIVE ->
  PyFloat.ge progress f100 = true ->
  update_challenge_status_if_completed db challenge progress user_id
  = (set_challenge_members
       (update_where (member_filter user_id (Challenge.challenge_id challenge))
          (ChallengeMember.with_is_completed true) (challenge_members db))
       (set_challenges (completed_challenges db challenge) db),
     match find (fun r => Challenge.challenge_id r =? Challenge.challenge_id challenge)
             (completed_challenges db challenge) with
     | Some r => r
     | None => Challenge.with_status COMPLETED challenge
     end).
Proof.
  intros Hc Hs Hp. unfold update_challenge_status_if_completed.
  rewrite Hc, Hs, Hp. simpl andb. cbv iota zeta.
  fold (completed_challenges db challenge).
  set (db1 := match find _ (challenges db) with
              | Some _ => _
              | None => _
              end).
  assert (E1 : db1 = set_challenges (completed_challenges db challenge) db).
  { unfold db1, completed_challenges. now destruct (find _ (challenges db)). }
  rewrite E1. clear db1 E1.
  set (db1 := set_challenges (completed_challenges db challenge) db).
  change (challenge_members db1) with (challenge_members db).
  destruct (find (member_filter user_id (Challenge.challenge_id challenge))
              (challenge_members db)) as [m|] eqn:E.
  - apply find_some in E. destruct E as [_ E]. apply member_filter_spec in E.
    destruct E as [-> ->]. reflexivity.
  - rewrite update_where_none by (intros x Hx; apply (find_none _ _ E x Hx)).
    reflexivity.
Qed.

(** The challenges after a completion. *)
Lemma completed_challenges_rows (db : Session) (challenge : Challenge.t) :
  (forall r, In r (completed_challenges db challenge) ->
             Challenge.challenge_id r = Challenge.challenge_id challenge ->
             Challenge.status r = COMPLETED)
  /\ (forall r, Challenge.challenge_id r <> Challenge.challenge_id challenge ->
                (In r (completed_challenges db challenge) <-> In r (challenges db)))
  /\ (forall c, find (fun r => Challenge.challenge_id r =? Challenge.challenge_id challenge)
                  (challenges db) = Some c ->
                find (fun r => Challenge.challenge_id r =? Challenge.challenge_id challenge)
                  (completed_challenges db challenge)
                = Some (Challenge.with_status COMPLETED c))
  /\ (find (fun r => Challenge.challenge_id r =? Challenge.challenge_id challenge)
        (challenges db) = None ->
      completed_challenges db challenge
      = challenges db ++ [Challenge.with_status COMPLETED challenge]
      /\ find (fun r => Challenge.challenge_id r =? Challenge.challenge_id challenge)
           (completed_challenges db challenge)
         = Some (Challenge.with_status COMPLETED challenge)).
Proof.
  unfold completed_challenges.
  destruct (find _ (challenges db)) as [c0|] eqn:E.
  - split; [|split; [|split]].
    + intros r Hin Hid. apply update_where_In in Hin. destruct Hin as (x & Hx & ->).
      destruct (Challenge.challenge_id x =? Challenge.challenge_id challenge) eqn:Ex.
      * reflexivity.
      * apply Z.eqb_neq in Ex. now destruct Ex.
    + intros r Hr. split.
      * intros Hin. apply update_where_In in Hin. destruct Hin as (x & Hx & ->).
        destruct (Challenge.challenge_id x =? Challenge.challenge_id challenge) eqn:Ex;
          [|assumption].
        apply Z.eqb_eq in Ex. now destruct Hr.
      * intros Hin. apply update_where_In. exists r. split; [assumption|].
        apply Z.eqb_neq in Hr. now rewrite Hr.
    + intros c [= <-]. rewrite find_update_where_map; [now rewrite E|].
      intros r Hr. exact Hr.
    + discriminate.
  - split; [|split; [|split]].
    + intros r Hin Hid. apply in_app_iff in Hin. destruct Hin as [Hin|[<-|[]]].
      * apply Z.eqb_eq in Hid. now rewrite (find_none _ _ E r Hin) in Hid.
      * reflexivity.
    + intros r Hr. rewrite in_app_iff. split; [|now left].
      intros [Hin|[<-|[]]]; [assumption|]. now destruct Hr.
    + discriminate.
    + intros _. split; [reflexivity|].
      rewrite find_app_none by exact E. cbn. now rewrite Z.eqb_refl.
Qed.

(** The memberships after a completion: the rows of the pair are flagged,
    and the rows of every other pair are as before. *)
Lemma completion_flags (user_id challenge_id : Z) (rows : list ChallengeMember.t)
    (m : ChallengeMember.t) :
  In m (update_where (member_filter user_id challenge_id)
          (ChallengeMember.with_is_completed true) rows) ->
  (member_filter user_id challenge_id m = true -> ChallengeMember.is_completed m = true)
  /\ (member_filter user_id challenge_id m = false -> In m rows).
Proof.
  intros H. apply update_where_In in H. destruct H as (x & Hx & ->).
  destruct (member_filter user_id challenge_id x) eqn:E.
  - split; [reflexivity|]. intros H. exfalso.
    unfold member_filter in *. simpl in H. congruence.
  - split; [congruence|]. now intros _.
Qed.

Lemma completion_keeps (user_id challenge_id : Z) (rows : list ChallengeMember.t)
    (m : ChallengeMember.t) :
  In m rows ->
  (member_filter user_id challenge_id m = true ->
   In (ChallengeMember.with_is_completed true m)
     (update_where (member_filter user_id challenge_id)
        (ChallengeMember.with_is_completed true) rows))
  /\ (member_filter user_id challenge_id m = false ->
      In m (update_where (member_filter user_id challenge_id)
              (ChallengeMember.with_is_completed true) rows)).
Proof.
  intros Hin. split; intros E; apply update_where_In; exists m; now rewrite E.
Qed.

(** C3.  [update_challenge_status_if_completed] changes nothing and returns
    the challenge as it was when completion is not automatic, or the status
    is not ACTIVE, or the progress is below 100.0.  When completion is
    automatic, the status ACTIVE and the progress at least 100.0, and the
    challenge is the row of its id or a challenge that no row stores yet:
    the challenge is returned with status COMPLETED and [get_challenge]
    finds it with that status (a challenge that no row stored is inserted
    with it); every challenge of the id is COMPLETED and the challenges of
    other ids are as before; every membership row of (user_id,
    challenge_id) has its completion flag set, each such row of the state
    before being kept with the flag set, the rows of other pairs are as
    before, and no membership is added or removed (none is touched when the
    pair has none); no other table changes.  The transition is one-way: a
    further call on the returned challenge, with any progress and user, is a
    no-op, as is any call on a challenge that is COMPLETED. *)
Theorem update_challenge_status_if_completed_spec
    (db : Session) (challenge : Challenge.t) (progress : PyFloat.float) (user_id : Z) :
  let after := update_challenge_status_if_completed db challenge progress user_id in
  let challenge_id := Challenge.challenge_id challenge in
  (Challenge.completion_type challenge <> AUTO
   \/ Challenge.status challenge <> ACTIVE
   \/ PyFloat.lt progress f100 = true ->
   after = (db, challenge))
  /\ (Challenge.completion_type challenge = AUTO ->
      Challenge.status challenge = ACTIVE ->
      PyFloat.ge progress f100 = true ->
      get_challenge db challenge_id = Some challenge
      \/ get_challenge db challenge_id = None ->
      snd after = Challenge.with_status COMPLETED challenge
      /\ Challenge.status (snd after) = COMPLETED
      /\ get_challenge (fst after) challenge_id
         = Some (Challenge.with_status COMPLETED challenge)
      /\ (get_challenge db challenge_id = None ->
          challenges (fst after)
          = challenges db ++ [Challenge.with_status COMPLETED challenge])
      /\ (forall r, In r (challenges (fst after)) ->
                    Challenge.challenge_id r = challenge_id ->
                    Challenge.status r = COMPLETED)
      /\ (forall r, Challenge.challenge_id r <> challenge_id ->
                    (In r (challenges (fst after)) <-> In r (challenges db)))
      /\ (forall m, In m (challenge_members (fst after)) ->
                    ChallengeMember.user_id m = user_id ->
                    ChallengeMember.challenge_id m = challenge_id ->
                    ChallengeMember.is_completed m = true)
      /\ (forall m, In m (challenge_members db) ->
                    ChallengeMember.user_id m = user_id ->
                    ChallengeMember.challenge_id m = challenge_id ->
                    In (ChallengeMember.mk user_id challenge_id true)
                      (challenge_members (fst after)))
      /\ (forall m, ~ (ChallengeMember.user_id m = user_id
                       /\ ChallengeMember.challenge_id m = challenge_id) ->
                    (In m (challenge_members (fst after)) <-> In m (challenge_members db)))
      /\ List.length (challenge_members (fst after)) = List.length (challenge_members db)
      /\ fst after
         = set_challenge_members (challenge_members (fst after))
             (set_challenges (challenges (fst after)) db)
      /\ forall progress' user_id',
          update_challenge_status_if_completed (fst after) (snd after) progress' user_id'
          = after)
  /\ (Challenge.status challenge = COMPLETED ->
      forall db' progress' user_id',
        update_challenge_status_if_completed db' challenge progress' user_id'
        = (db', challenge)).
Proof.
  cbv zeta.
  assert (Hnoop : forall d c p u,
             Challenge.completion_type c <> AUTO
             \/ Challenge.status c <> ACTIVE
             \/ PyFloat.lt p f100 = true ->
             update_challenge_status_if_completed d c p u = (d, c)).
  { intros d c p u H. unfold update_challenge_status_if_completed.
    assert (E : completion_type_eqb (Challenge.completion_type c) AUTO
                && PyFloat.ge p f100
                && status_eqb (Challenge.status c) ACTIVE = false).
    { destruct H as [H|[H|H]].
      - destruct (completion_type_eqb _ AUTO) eqn:E; [|reflexivity].
        now apply completion_type_eqb_eq in E.
      - destruct (status_eqb _ ACTIVE) eqn:E; [|apply andb_false_r].
        now apply status_eqb_eq in E.
      - rewrite (lt_not_ge _ _ H). now rewrite andb_false_r. }
    now rewrite E. }
  split; [apply Hnoop|]. split.
  - intros Hc Hs Hp Hrow.
    rewrite (completed_state db challenge progress user_id Hc Hs Hp).
    cbn [fst snd]. unfold get_challenge in *.
    cbn [challenges challenge_members set_challenges set_challenge_members].
    destruct (completed_challenges_rows db challenge) as (Hdone & Hother & Hstored & Hnew).
    assert (Hfind : find (fun r => Challenge.challenge_id r
                                   =? Challenge.challenge_id challenge)
                      (completed_challenges db challenge)
                    = Some (Challenge.with_status COMPLETED challenge)).
    { destruct Hrow as [Hrow|Hrow]; [now apply Hstored|now apply Hnew]. }
    rewrite Hfind.
    split; [reflexivity|]. split; [reflexivity|]. split; [reflexivity|].
    split; [intros Hnone; now apply Hnew|].
    split; [exact Hdone|]. split; [exact Hother|].
    split; [|split; [|split; [|split; [|split]]]].
    + intros m Hin Hu Hcid. apply completion_flags in Hin. destruct Hin as [Hflag _].
      apply Hflag. apply member_filter_spec. now split.
    + intros m Hin Hu Hcid.
      destruct (completion_keeps user_id (Challenge.challenge_id challenge) _ m Hin)
        as [Hkeep _].
      assert (E : member_filter user_id (Challenge.challenge_id challenge) m = true)
        by (apply member_filter_spec; now split).
      specialize (Hkeep E). unfold ChallengeMember.with_is_completed in Hkeep.
      now rewrite Hu, Hcid in Hkeep.
    + intros m Hm.
      assert (E : member_filter user_id (Challenge.challenge_id challenge) m = false).
      { destruct (member_filter _ _ m) eqn:E; [|reflexivity].
        apply member_filter_spec in E. now destruct Hm. }
      split.
      * intros Hin. apply completion_flags in Hin. destruct Hin as [_ Hin]. now apply Hin.
      * intros Hin. now apply completion_keeps.
    + apply update_where_length.
    + reflexivity.
    + intros progress' user_id'. apply Hnoop. right. left. cbn. discriminate.
  - intros Hs db' progress' user_id'. apply Hnoop. right. left. rewrite Hs. discriminate.
Qed.

(** ** join_challenge *)

Lemma find_none_filter {A : Type} (p : A -> bool) (l : list A) :
  find p l = None -> filter p l = [].
Proof.
  induction l as [|a l IH]; simpl; [reflexivity|].
  destruct (p a); [discriminate|]. exact IH.
Qed.

Lemma find_some_filter {A : Type} (p : A -> bool) (l : list A) (x : A) :
  find p l = Some x -> (1 <= List.length (filter p l))%nat.
Proof.
  intros H. apply find_some in H.
  assert (Hin : In x (filter p l)) by now apply filter_In.
  destruct (filter p l); [destruct Hin|simpl; lia].
Qed.

(** The second of two joins in a row finds the row the first returned, and
    returns what the first returned. *)
Lemma join_challenge_again (db : Session) (user_id challenge_id : Z) :
  join_challenge (fst (join_challenge db user_id challenge_id)) user_id challenge_id
  = join_challenge db user_id challenge_id.
Proof.
  unfold join_challenge.
  destruct (find _ (challenge_members db)) as [m|] eqn:E; simpl.
  - now rewrite E.
  - rewrite (find_app_none _ _ _ E). simpl.
    unfold member_filter. simpl. now rewrite !Z.eqb_refl.
Qed.

(** C4.  [join_challenge] is idempotent.  From a state with at most one
    membership row for the pair (the uniqueness the data model requires), two
    calls in a row leave exactly one row for the pair, the second call
    changes nothing, and both return the same membership, which is that
    row. *)
Theorem join_challenge_idempotent (db : Session) (user_id challenge_id : Z) :
  (List.length (filter (member_filter user_id challenge_id) (challenge_members db)) <= 1)%nat ->
  let first := join_challenge db user_id challenge_id in
  let second := join_challenge (fst first) user_id challenge_id in
  snd second = snd first
  /\ fst second = fst first
  /\ List.length (filter (member_filter user_id challenge_id)
                    (challenge_members (fst second))) = 1%nat
  /\ In (snd first) (challenge_members (fst second))
  /\ ChallengeMember.user_id (snd first) = user_id
  /\ ChallengeMember.challenge_id (snd first) = challenge_id.
Proof.
  intros Hle. cbv zeta.
  rewrite join_challenge_again.
  split; [reflexivity|]. split; [reflexivity|].
  unfold join_challenge.
  destruct (find _ (challenge_members db)) as [m|] eqn:E; simpl.
  - pose proof (find_some_filter _ _ _ E) as Hge.
    apply find_some in E. destruct E as [Hin Hm].
    apply member_filter_spec in Hm. repeat split; try tauto. lia.
  - rewrite filter_app, (find_none_filter _ _ E). simpl.
    unfold member_filter at 1. simpl. rewrite !Z.eqb_refl. simpl.
    repeat split; auto. apply in_or_app. right. now left.
Qed.

(** Joining keeps the pair unique. *)
Lemma join_challenge_keeps_unique (db : Session) (user_id challenge_id : Z) (u c : Z) :
  (List.length (filter (member_filter u c) (challenge_members db)) <= 1)%nat ->
  (u, c) <> (user_id, challenge_id) ->
  (List.length (filter (member_filter u c)
                  (challenge_members (fst (join_challenge db user_id challenge_id)))) <= 1)%nat.
Proof.
  intros Hle Hne. unfold join_challenge.
  destruct (find _ (challenge_members db)); simpl; [exact Hle|].
  rewrite filter_app, length_app. simpl.
  destruct (member_filter u c _) eqn:E; simpl; [|lia].
  apply member_filter_spec in E. simpl in E. destruct E as [-> ->]. now destruct Hne.
Qed.

(** ** create_user *)

Lemma enroll_all (user_id : Z) (l : list Challenge.t) (db : Session) :
  fold_left
    (fun db challenge =>
       set_challenge_members
         (challenge_members db
          ++ [ChallengeMember.mk user_id (Challenge.challenge_id challenge)
                ChallengeMember.is_completed_default]) db)
    l db
  = set_challenge_members
      (challenge_members db
       ++ map (fun challenge =>
                 ChallengeMember.mk user_id (Challenge.challenge_id challenge)
                   ChallengeMember.is_completed_default) l) db.
Proof.
  revert db. induction l as [|c l IH]; intros db; simpl.
  - rewrite app_nil_r. symmetry. apply set_challenge_members_same.
  - rewrite IH. destruct db; simpl. unfold set_challenge_members; simpl.
    now rewrite <- app_assoc.
Qed.

(** C5.  [create_user] appends the new user, whose id is the next value of
    the key sequence, and one membership row per PERSONAL-scope challenge of
    the state, in table order, each linking the new user to that challenge
    with completion flag false: exactly N rows for N such challenges.  The
    challenges themselves are unchanged. *)
Theorem create_user_enrolls (db : Session) (user : UserCreate.t) :
  let personal := filter (fun c => scope_eqb (Challenge.scope c) PERSONAL) (challenges db) in
  let db' := fst (create_user db user) in
  let db_user := snd (create_user db user) in
  db_user = User.mk (user_id_seq db) (UserCreate.username user) (UserCreate.email user)
              (UserCreate.password_hash user) (UserCreate.role user)
              (UserCreate.user_group_id user)
  /\ users db' = users db ++ [db_user]
  /\ challenge_members db'
     = challenge_members db
       ++ map (fun c => ChallengeMember.mk (User.user_id db_user)
                          (Challenge.challenge_id c) false) personal
  /\ List.length (challenge_members db')
     = (List.length (challenge_members db) + List.length personal)%nat
  /\ (forall c, In c personal <-> In c (challenges db) /\ Challenge.scope c = PERSONAL)
  /\ challenges db' = challenges db.
Proof.
  cbv zeta. unfold create_user. simpl fst. simpl snd.
  change (challenges (set_user_id_seq _ (set_users _ db))) with (challenges db).
  rewrite enroll_all. simpl.
  repeat split.
  - now rewrite length_app, length_map.
  - now apply filter_In in H.
  - apply filter_In in H. now apply scope_eqb_eq.
  - intros [H1 H2]. apply filter_In. split; [assumption|]. now apply scope_eqb_eq.
Qed.

Lemma join_challenge_idempotent_witness :
  (List.length (filter (member_filter 7 3) (challenge_members empty_db)) <= 1)%nat
  /\ snd (join_challenge (fst (join_challenge empty_db 7 3)) 7 3)
     = snd (join_challenge empty_db 7 3)
  /\ List.length
       (filter (member_filter 7 3)
          (challenge_members (fst (join_challenge (fst (join_challenge empty_db 7 3)) 7 3))))
     = 1%nat.
Proof.
  assert (H : (List.length (filter (member_filter 7 3) (challenge_members empty_db)) <= 1)%nat)
    by (simpl; lia).
  split; [exact H|].
  destruct (join_challenge_idempotent empty_db 7 3 H) as (H1 & _ & H3 & _).
  split; [exact H1|exact H3].
Defined.

(** ** delete_user *)

(** C7.  For the id of an existing user, [delete_user] returns that user
    (the row the lookup finds) and leaves the state without the rows of that
    id in the mobility logs, the credits ledger, the memberships, the
    watering logs, the gardens, the challenges created by the user, the
    achievements, the notifications, the raw-ingest rows and the users; rows
    of other users stay, in order.  For an id no user has, it returns [None]
    and leaves the state as it was. *)
Theorem delete_user_spec (db : Session) (user_id : Z) :
  ((exists u, In u (users db) /\ User.user_id u = user_id) ->
   exists u,
     In u (users db) /\ User.user_id u = user_id
     /\ delete_user db user_id = (without_user db user_id, Some u)
     /\ (forall r, In r (users (without_user db user_id)) <->
                   In r (users db) /\ User.user_id r <> user_id)
     /\ (forall r, In r (mobility_logs (without_user db user_id)) <->
                   In r (mobility_logs db) /\ MobilityLog.user_id r <> user_id)
     /\ (forall r, In r (credits_ledger (without_user db user_id)) <->
                   In r (credits_ledger db) /\ CreditsLedger.user_id r <> user_id)
     /\ (forall r, In r (challenge_members (without_user db user_id)) <->
                   In r (challenge_members db) /\ ChallengeMember.user_id r <> user_id)
     /\ (forall r, In r (garden_watering_logs (without_user db user_id)) <->
                   In r (garden_watering_logs db) /\ GardenWateringLog.user_id r <> user_id)
     /\ (forall r, In r (user_gardens (without_user db user_id)) <->
                   In r (user_gardens db) /\ UserGarden.user_id r <> user_id)
     /\ (forall r, In r (challenges (without_user db user_id)) <->
                   In r (challenges db) /\ Challenge.created_by r <> user_id)
     /\ (forall r, In r (user_achievements (without_user db user_id)) <->
                   In r (user_achievements db) /\ UserAchievement.user_id r <> user_id)
     /\ (forall r, In r (notifications (without_user db user_id)) <->
                   In r (notifications db) /\ Notification.user_id r <> user_id)
     /\ (forall r, In r (ingest_raw (without_user db user_id)) <->
                   In r (ingest_raw db) /\ IngestRaw.user_id r <> user_id))
  /\ ((forall u, In u (users db) -> User.user_id u <> user_id) ->
      delete_user db user_id = (db, None)).
Proof.
  split.
  - intros (u0 & Hin0 & Hid0).
    destruct (find_some_exists (fun u => User.user_id u =? user_id) (users db))
      as [u Hu].
    { exists u0. split; [assumption|]. now apply Z.eqb_eq. }
    exists u. pose proof (find_some _ _ Hu) as [Hin Hid]. apply Z.eqb_eq in Hid.
    split; [assumption|]. split; [assumption|]. split.
    + unfold delete_user. rewrite Hu, Hid. reflexivity.
    + unfold without_user; simpl.
      repeat split; intros; try (apply delete_where_In in H; destruct H as [H1 H2];
                                 try assumption; now apply Z.eqb_neq in H2);
        (apply delete_where_In; destruct H as [H1 H2]; split;
         [assumption|now apply Z.eqb_neq]).
  - intros Hnone. unfold delete_user.
    rewrite find_none_all; [reflexivity|].
    intros u Hu. apply Z.eqb_neq. now apply Hnone.
Qed.

(** ** create_mobility_log *)

Lemma carbon_factor_filter_spec (log : MobilityLogCreate.t) (f : CarbonFactor.t) :
  carbon_factor_filter log f = true <->
  CarbonFactor.mode f = MobilityLogCreate.mode log
  /\ CarbonFactor.valid_from f <= MobilityLogCreate.started_at log
  /\ MobilityLogCreate.ended_at log <= CarbonFactor.valid_to f.
Proof.
  unfold carbon_factor_filter.
  rewrite !andb_true_iff, mode_eqb_eq, Z.leb_le, Z.geb_le. tauto.
Qed.


(** C6.  When no carbon factor has the log's mode and a validity window
    containing the trip, [create_mobility_log] raises nothing: it inserts and
    returns the log with [co2_saved_g = 0.0] and [points_earned = 0]. *)
Theorem create_mobility_log_without_factor (db : Session) (log : MobilityLogCreate.t) :
  (forall f, In f (carbon_factors db) ->
             ~ (CarbonFactor.mode f = MobilityLogCreate.mode log
                /\ CarbonFactor.valid_from f <= MobilityLogCreate.started_at log
                /\ MobilityLogCreate.ended_at log <= CarbonFactor.valid_to f)) ->
  create_mobility_log db log
  = Ok (with_log db (logged db log f0 0), logged db log f0 0)
  /\ MobilityLog.co2_saved_g (logged db log f0 0) = f0
  /\ MobilityLog.points_earned (logged db log f0 0) = 0
  /\ In (logged db log f0 0) (mobility_logs (with_log db (logged db log f0 0))).
Proof.
  intros Hnone. split; [|split; [reflexivity|split; [reflexivity|]]].
  - unfold create_mobility_log. rewrite find_none_all; [reflexivity|].
    intros f Hf. destruct (carbon_factor_filter log f) eqn:E; [|reflexivity].
    apply carbon_factor_filter_spec in E. now destruct (Hnone f Hf).
  - simpl. apply in_or_app. right. now left.
Qed.

Lemma create_mobility_log_without_factor_witness :
  (forall f, In f (carbon_factors empty_db) ->
             ~ (CarbonFactor.mode f = MobilityLogCreate.mode (ride (PyFloat.of_int 10))
                /\ CarbonFactor.valid_from f
                   <= MobilityLogCreate.started_at (ride (PyFloat.of_int 10))
                /\ MobilityLogCreate.ended_at (ride (PyFloat.of_int 10))
                   <= CarbonFactor.valid_to f))
  /\ create_mobility_log empty_db (ride (PyFloat.of_int 10))
     = Ok (with_log empty_db (logged empty_db (ride (PyFloat.of_int 10)) f0 0),
           logged empty_db (ride (PyFloat.of_int 10)) f0 0).
Proof.
  assert (H : forall f, In f (carbon_factors empty_db) ->
             ~ (CarbonFactor.mode f = MobilityLogCreate.mode (ride (PyFloat.of_int 10))
                /\ CarbonFactor.valid_from f
                   <= MobilityLogCreate.started_at (ride (PyFloat.of_int 10))
                /\ MobilityLogCreate.ended_at (ride (PyFloat.of_int 10))
                   <= CarbonFactor.valid_to f)).
  { intros f []. }
  split; [exact H|].
  exact (proj1 (create_mobility_log_without_factor empty_db (ride (PyFloat.of_int 10)) H)).
Defined.




Example create_mobility_log_spec_example :
  create_mobility_log (db_with_factor (PyFloat.of_int 120)) (ride (PyFloat.of_int 10))
  = Ok (with_log (db_with_factor (PyFloat.of_int 120))
          (logged (db_with_factor (PyFloat.of_int 120)) (ride (PyFloat.of_int 10))
             (PyFloat.of_int 1200) 12),
        logged (db_with_factor (PyFloat.of_int 120)) (ride (PyFloat.of_int 10))
          (PyFloat.of_int 1200) 12).
Proof. vm_compute. reflexivity. Qed.


(** A ride of 1e19 km at 120 g/km: the product 1.2e21 is finite and
    [int(co2_saved_g / 100)] is 12000000000000000000, which no 64-bit
    integer column holds; the commit raises and no log is created. *)
Example create_mobility_log_commit_overflow :
  PyFloat.is_finite (PyFloat.mul (PyFloat.of_int (10 ^ 19)) (PyFloat.of_int 120)) = true
  /\ PyFloat.to_int
       (SFdiv PyFloat.prec PyFloat.emax
          (PyFloat.mul (PyFloat.of_int (10 ^ 19)) (PyFloat.of_int 120)) f100)
     = Ok 12000000000000000000
  /\ create_mobility_log (db_with_factor (PyFloat.of_int 120))
       (ride (PyFloat.of_int (10 ^ 19)))
     = Raise OverflowError.
Proof. repeat split; vm_compute; reflexivity. Qed.

(** ** calculate_challenge_progress *)

Lemma query_filters_spec (user_id : Z) (challenge : Challenge.t) (l : MobilityLog.t) :
  query_filters user_id challenge l = true <-> counts_for user_id challenge l.
Proof.
  unfold query_filters, counts_for.
  rewrite !andb_true_iff, Z.eqb_eq, Z.geb_le, Z.leb_le.
  destruct (mode_eqb (Challenge.target_mode challenge) ANY) eqn:E; simpl.
  - apply mode_eqb_eq in E. tauto.
  - rewrite mode_eqb_eq.
    assert (Challenge.target_mode challenge <> ANY).
    { intros H. apply mode_eqb_eq in H. congruence. }
    tauto.
Qed.

(** The value the code divides: the aggregate, with NULL read as zero. *)
Lemma achieved_scalar_spec (db : Session) (user_id : Z) (challenge : Challenge.t) :
  float_of match achieved_scalar db user_id challenge with
           | None => Float f0
           | Some v => v
           end
  = achieved (Challenge.goal_type challenge)
      (filter (query_filters user_id challenge) (mobility_logs db)).
Proof.
  unfold achieved_scalar, achieved, sql_sum, sql_count, sum_or_zero.
  destruct (Challenge.goal_type challenge); try reflexivity.
  - now destruct (map _ _).
  - now destruct (map _ _).
Qed.

(** A finite float divided by itself is [1.0]. *)
Lemma div_self (s : bool) (m : positive) (e : Z) :
  SFdiv PyFloat.prec PyFloat.emax (S754_finite s m e) (S754_finite s m e)
  = S754_finite false 4503599627370496 (-52).
Proof.
  unfold SFdiv, SFdiv_core_binary.
  replace (Zdigits2 (Zpos m) + e - (Zdigits2 (Zpos m) + e)) with 0 by lia.
  replace (e - e) with 0 by lia.
  change (Z.min (SpecFloat.fexp PyFloat.prec PyFloat.emax 0) 0) with (-53).
  change (0 - -53) with 53.
  cbv iota.
  rewrite Z.shiftl_mul_pow2 by lia.
  assert (Hd : Z.div_eucl (Zpos m * 2 ^ 53) (Zpos m) = (2 ^ 53, 0)).
  { pose proof (Z_div_mult (2 ^ 53) (Zpos m) eq_refl) as H1.
    pose proof (Z_mod_mult (2 ^ 53) (Zpos m)) as H2.
    rewrite (Z.mul_comm (Zpos m)). unfold Z.div, Z.modulo in H1, H2.
    destruct (Z.div_eucl (2 ^ 53 * Zpos m) (Zpos m)) as [q r]. now subst. }
  rewrite Hd.
  replace (xorb s s) with false by now destruct s.
  unfold new_location. destruct (Z.even (Zpos m)); vm_compute; reflexivity.
Qed.

(** C2, as the code has it.  [calculate_challenge_progress] raises nothing.
    It returns [0.0] when [goal_target_value > 0] does not hold, in
    particular when the target is at most zero.  Otherwise it returns
    [round(p, 1)] for the binary64 value [p = (achieved / target) * 100],
    the division first.  [achieved] is the aggregate the goal type selects
    (the sum of [co2_saved_g], the sum of [distance_km], or the count) over
    the user's logs that start at or after [start_at], end at or before
    [end_at], and have the target mode unless that is [ANY]; the sum of no
    rows is zero.  When [achieved] equals a finite positive target, the
    result is [100.0]. *)
Theorem calculate_challenge_progress_spec
    (db : Session) (user_id : Z) (challenge : Challenge.t) :
  let rows := filter (query_filters user_id challenge) (mobility_logs db) in
  let total := achieved (Challenge.goal_type challenge) rows in
  let target := Challenge.goal_target_value challenge in
  (forall l, In l rows <-> In l (mobility_logs db) /\ counts_for user_id challenge l)
  /\ (positive_float target = false ->
      calculate_challenge_progress db user_id challenge = Ok f0)
  /\ (PyFloat.le target f0 = true ->
      calculate_challenge_progress db user_id challenge = Ok f0)
  /\ (positive_float target = true ->
      calculate_challenge_progress db user_id challenge = Ok (progress_of total target))
  /\ (positive_float target = true -> PyFloat.is_finite target = true ->
      total = target ->
      calculate_challenge_progress db user_id challenge = Ok f100)
  /\ (rows = [] -> Challenge.goal_type challenge <> TRIP_COUNT -> total = f0).
Proof.
  cbv zeta.
  assert (Hpos : positive_float (Challenge.goal_target_value challenge) = true ->
                 calculate_challenge_progress db user_id challenge
                 = Ok (progress_of
                         (achieved (Challenge.goal_type challenge)
                            (filter (query_filters user_id challenge) (mobility_logs db)))
                         (Challenge.goal_target_value challenge))).
  { intros Hp. unfold calculate_challenge_progress. rewrite Hp.
    rewrite achieved_scalar_spec. unfold PyFloat.truediv.
    rewrite (positive_float_not_zero _ Hp). reflexivity. }
  assert (Hzero : positive_float (Challenge.goal_target_value challenge) = false ->
                  calculate_challenge_progress db user_id challenge = Ok f0).
  { intros Hp. unfold calculate_challenge_progress. now rewrite Hp. }
  split; [|split; [|split; [|split; [|split]]]].
  - intros l. rewrite filter_In. now rewrite query_filters_spec.
  - exact Hzero.
  - intros Hle. apply Hzero.
    unfold positive_float, PyFloat.gt, PyFloat.le, SFltb, SFleb in *.
    rewrite (SFcompare_antisym (Challenge.goal_target_value challenge) f0).
    destruct (SFcompare (Challenge.goal_target_value challenge) f0) as [[]|];
      simpl; congruence.
  - exact Hpos.
  - intros Hp Hfin Heq. rewrite (Hpos Hp), Heq. unfold progress_of.
    destruct (positive_float_cases _ Hp) as [(m & e & E)|E]; rewrite E in *.
    + rewrite div_self. reflexivity.
    + discriminate.
  - intros Hrows Hg. rewrite Hrows. unfold achieved.
    now destruct (Challenge.goal_type challenge).
Qed.

(** The example of the specification: 3 trips of a target of 5 are 60.0. *)
Lemma calculate_challenge_progress_spec_witness :
  positive_float (PyFloat.of_int 5) = true
  /\ calculate_challenge_progress (db_with_rides 3 (PyFloat.of_int 2)) 1
       (sample_challenge TRIP_COUNT (PyFloat.of_int 5))
     = Ok (PyFloat.of_int 60).
Proof.
  assert (Hp : positive_float (PyFloat.of_int 5) = true) by (vm_compute; reflexivity).
  split; [exact Hp|].
  destruct (calculate_challenge_progress_spec (db_with_rides 3 (PyFloat.of_int 2)) 1
              (sample_challenge TRIP_COUNT (PyFloat.of_int 5)))
    as (_ & _ & _ & H & _).
  rewrite (H Hp). vm_compute. reflexivity.
Defined.

(** A target met exactly: 5 trips of a target of 5 are 100.0. *)
Example calculate_challenge_progress_target_met :
  calculate_challenge_progress (db_with_rides 5 (PyFloat.of_int 2)) 1
    (sample_challenge TRIP_COUNT (PyFloat.of_int 5))
  = Ok f100.
Proof. vm_compute. reflexivity. Qed.

(** C2 does not hold with the percentage computed as the property writes it.
    For 23 trips of a target of 80 the code divides first: 23/80 is
    0.28749999999999997 in binary64 and its product with 100 is
    28.749999999999996, which rounds to 28.7.  [100 * 23 / 80] is exactly
    28.75, a tie that rounds to 28.8, in binary64 and in exact arithmetic
    alike.  And a target met exactly does not give 100.0 when the target is
    infinite: the quotient of two infinities is a NaN. *)
Lemma calculate_challenge_progress_order :
  calculate_challenge_progress (db_with_rides 23 (PyFloat.of_int 2)) 1
    (sample_challenge TRIP_COUNT (PyFloat.of_int 80))
  = Ok (PyFloat.of_decimal 287 1)
  /\ achieved TRIP_COUNT
       (filter (query_filters 1 (sample_challenge TRIP_COUNT (PyFloat.of_int 80)))
          (mobility_logs (db_with_rides 23 (PyFloat.of_int 2))))
     = PyFloat.of_int 23
  /\ progress_as_written (PyFloat.of_int 23) (PyFloat.of_int 80) = PyFloat.of_decimal 288 1
  /\ exact_tenths 23 80 = 288
  /\ PyFloat.of_decimal 287 1 <> PyFloat.of_decimal 288 1
  /\ ~ (forall db user_id challenge,
           positive_float (Challenge.goal_target_value challenge) = true ->
           calculate_challenge_progress db user_id challenge
           = Ok (progress_as_written
                   (achieved (Challenge.goal_type challenge)
                      (filter (query_filters user_id challenge) (mobility_logs db)))
                   (Challenge.goal_target_value challenge)))
  /\ achieved DISTANCE_KM
       (filter (query_filters 1 (sample_challenge DISTANCE_KM infinity))
          (mobility_logs (db_with_rides 1 infinity)))
     = infinity
  /\ calculate_challenge_progress (db_with_rides 1 infinity) 1
       (sample_challenge DISTANCE_KM infinity)
     = Ok S754_nan.
Proof.
  assert (E : calculate_challenge_progress (db_with_rides 23 (PyFloat.of_int 2)) 1
                (sample_challenge TRIP_COUNT (PyFloat.of_int 80))
              = Ok (PyFloat.of_decimal 287 1)) by (vm_compute; reflexivity).
  split; [exact E|].
  split; [vm_compute; reflexivity|].
  split; [vm_compute; reflexivity|].
  split; [vm_compute; reflexivity|].
  split; [vm_compute; discriminate|].
  split; [|split; vm_compute; reflexivity].
  intros H.
  assert (Hp : positive_float
                 (Challenge.goal_target_value
                    (sample_challenge TRIP_COUNT (PyFloat.of_int 80))) = true)
    by (vm_compute; reflexivity).
  specialize (H (db_with_rides 23 (PyFloat.of_int 2)) 1
                (sample_challenge TRIP_COUNT (PyFloat.of_int 80)) Hp).
  rewrite E in H. vm_compute in H. discriminate.
Qed.

(** * Further properties of the layer *)

(** ** leave_challenge *)

Lemma member_filter_false (u c : Z) (m : ChallengeMember.t) :
  member_filter u c m = false <->
  ~ (ChallengeMember.user_id m = u /\ ChallengeMember.challenge_id m = c).
Proof.
  rewrite <- member_filter_spec. now destruct (member_filter u c m).
Qed.

Lemma leave_challenge_absent (db : Session) (user_id challenge_id : Z) :
  (forall m, In m (challenge_members db) ->
             ~ (ChallengeMember.user_id m = user_id
                /\ ChallengeMember.challenge_id m = challenge_id)) ->
  leave_challenge db user_id challenge_id = (db, None).
Proof.
  intros Hnone. unfold leave_challenge. rewrite find_none_all; [reflexivity|].
  intros m Hm. now apply member_filter_false, Hnone.
Qed.

Lemma leave_challenge_rows (db : Session) (user_id challenge_id : Z) (r : ChallengeMember.t) :
  In r (challenge_members (fst (leave_challenge db user_id challenge_id))) <->
  In r (challenge_members db)
  /\ ~ (ChallengeMember.user_id r = user_id /\ ChallengeMember.challenge_id r = challenge_id).
Proof.
  unfold leave_challenge.
  destruct (find _ (challenge_members db)) as [m|] eqn:E.
  - pose proof (find_some _ _ E) as [Hin Hm]. apply member_filter_spec in Hm.
    destruct Hm as [Hu Hc]. rewrite Hu, Hc. simpl.
    rewrite delete_where_In. now rewrite member_filter_false.
  - simpl. split; [|tauto]. intros Hin. split; [assumption|].
    apply member_filter_false. apply (find_none _ _ E r Hin).
Qed.

(** X1.  [leave_challenge] returns the membership row of the pair, if there is
    one, and leaves the table without any row of the pair and with every row
    of another pair; without a row of the pair it returns [None] and changes
    nothing.  No other table changes. *)
Theorem leave_challenge_spec (db : Session) (user_id challenge_id : Z) :
  ((forall m, In m (challenge_members db) ->
              ~ (ChallengeMember.user_id m = user_id
                 /\ ChallengeMember.challenge_id m = challenge_id)) ->
   leave_challenge db user_id challenge_id = (db, None))
  /\ ((exists m, In m (challenge_members db)
                 /\ ChallengeMember.user_id m = user_id
                 /\ ChallengeMember.challenge_id m = challenge_id) ->
      exists m, snd (leave_challenge db user_id challenge_id) = Some m
                /\ In m (challenge_members db)
                /\ ChallengeMember.user_id m = user_id
                /\ ChallengeMember.challenge_id m = challenge_id)
  /\ (forall r, In r (challenge_members (fst (leave_challenge db user_id challenge_id))) <->
                In r (challenge_members db)
                /\ ~ (ChallengeMember.user_id r = user_id
                      /\ ChallengeMember.challenge_id r = challenge_id))
  /\ fst (leave_challenge db user_id challenge_id)
     = set_challenge_members
         (challenge_members (fst (leave_challenge db user_id challenge_id))) db.
Proof.
  split; [apply leave_challenge_absent|].
  split; [|split; [apply leave_challenge_rows|]].
  - intros (m0 & Hin0 & Hu0 & Hc0). unfold leave_challenge.
    destruct (find_some_exists (member_filter user_id challenge_id) (challenge_members db))
      as [m Hm].
    { exists m0. split; [assumption|]. now apply member_filter_spec. }
    rewrite Hm. exists m. apply find_some in Hm. destruct Hm as [Hin Hm].
    apply member_filter_spec in Hm. simpl. tauto.
  - unfold leave_challenge.
    destruct (find _ (challenge_members db)); simpl; [reflexivity|].
    symmetry. apply set_challenge_members_same.
Qed.

Lemma delete_where_all_false {A : Type} (p : A -> bool) (l : list A) :
  (forall x, In x l -> p x = false) -> delete_where p l = l.
Proof.
  unfold delete_where. induction l as [|a l IH]; intros H; simpl; [reflexivity|].
  rewrite (H a (or_introl eq_refl)). simpl. f_equal. apply IH.
  intros x Hx. apply H. now right.
Qed.

Lemma set_challenge_members_twice (v w : list ChallengeMember.t) (db : Session) :
  set_challenge_members v (set_challenge_members w db) = set_challenge_members v db.
Proof. reflexivity. Qed.

(** X2.  Joining and leaving are inverse to each other on a pair that had no
    membership: [leave_challenge] after [join_challenge] returns the joined
    row and restores the state. *)
Theorem join_then_leave (db : Session) (user_id challenge_id : Z) :
  (forall m, In m (challenge_members db) ->
             ~ (ChallengeMember.user_id m = user_id
                /\ ChallengeMember.challenge_id m = challenge_id)) ->
  leave_challenge (fst (join_challenge db user_id challenge_id)) user_id challenge_id
  = (db, Some (snd (join_challenge db user_id challenge_id))).
Proof.
  intros Hnone.
  assert (Hf : forall x, In x (challenge_members db) ->
                         member_filter user_id challenge_id x = false).
  { intros x Hx. now apply member_filter_false, Hnone. }
  unfold join_challenge. rewrite (find_none_all _ _ Hf).
  cbn [fst snd]. unfold leave_challenge.
  cbn [challenge_members set_challenge_members].
  rewrite (find_app_none _ _ _ (find_none_all _ _ Hf)).
  cbn [find]. unfold member_filter at 1. cbn [ChallengeMember.user_id ChallengeMember.challenge_id].
  rewrite !Z.eqb_refl. cbn [andb ChallengeMember.user_id ChallengeMember.challenge_id].
  f_equal. rewrite set_challenge_members_twice.
  unfold delete_where. rewrite filter_app. cbn [filter].
  unfold member_filter at 2. cbn [ChallengeMember.user_id ChallengeMember.challenge_id].
  rewrite !Z.eqb_refl. cbn [andb negb]. rewrite app_nil_r.
  fold (delete_where (member_filter user_id challenge_id) (challenge_members db)).
  rewrite (delete_where_all_false _ _ Hf). apply set_challenge_members_same.
Qed.

Lemma join_then_leave_witness :
  (forall m, In m (challenge_members empty_db) ->
             ~ (ChallengeMember.user_id m = 7 /\ ChallengeMember.challenge_id m = 3))
  /\ leave_challenge (fst (join_challenge empty_db 7 3)) 7 3
     = (empty_db, Some (snd (join_challenge empty_db 7 3))).
Proof.
  assert (H : forall m, In m (challenge_members empty_db) ->
                ~ (ChallengeMember.user_id m = 7 /\ ChallengeMember.challenge_id m = 3))
    by (intros m []).
  split; [exact H|]. exact (join_then_leave empty_db 7 3 H).
Defined.

(** X3.  Leaving twice: the second call finds nothing, returns [None] and leaves
    the state of the first. *)
Theorem leave_challenge_twice (db : Session) (user_id challenge_id : Z) :
  leave_challenge (fst (leave_challenge db user_id challenge_id)) user_id challenge_id
  = (fst (leave_challenge db user_id challenge_id), None).
Proof.
  apply leave_challenge_absent. intros m Hm.
  apply leave_challenge_rows in Hm. tauto.
Qed.

(** ** get_challenge, delete_challenge *)

(** X4.  [delete_challenge] returns the challenge of the given id and removes it,
    so that [get_challenge] no longer finds the id; challenges of other ids
    stay.  It deletes no membership: the rows of [challenge_members] that
    refer to the deleted challenge stay in the table.  For an id that no
    challenge has it returns [None] and changes nothing. *)
Theorem delete_challenge_spec (db : Session) (challenge_id : Z) :
  ((forall c, In c (challenges db) -> Challenge.challenge_id c <> challenge_id) ->
   delete_challenge db challenge_id = (db, None))
  /\ snd (delete_challenge db challenge_id) = get_challenge db challenge_id
  /\ (forall c, get_challenge db challenge_id = Some c ->
                In c (challenges db) /\ Challenge.challenge_id c = challenge_id)
  /\ get_challenge (fst (delete_challenge db challenge_id)) challenge_id = None
  /\ (forall r, In r (challenges (fst (delete_challenge db challenge_id))) <->
                In r (challenges db) /\ Challenge.challenge_id r <> challenge_id)
  /\ challenge_members (fst (delete_challenge db challenge_id)) = challenge_members db.
Proof.
  unfold delete_challenge, get_challenge.
  destruct (find _ (challenges db)) as [c|] eqn:E.
  - pose proof (find_some _ _ E) as [Hin Hid]. apply Z.eqb_eq in Hid.
    rewrite Hid. simpl.
    split; [|split; [|split; [|split; [|split]]]]; try reflexivity.
    + intros Hnone. now destruct (Hnone c Hin).
    + intros c' [= <-]. now split.
    + apply find_none_all. intros x Hx. apply delete_where_In in Hx.
      destruct Hx as [_ Hx]. exact Hx.
    + intros r. rewrite delete_where_In. now rewrite Z.eqb_neq.
  - simpl. split; [|split; [|split; [|split; [|split]]]]; try reflexivity.
    + discriminate.
    + exact E.
    + intros r. split; [|tauto]. intros Hin. split; [assumption|].
      apply Z.eqb_neq. apply (find_none _ _ E r Hin).
Qed.

(** ** update_challenge *)

Lemma set_attributes_twice (u : ChallengeUpdate.t) (c : Challenge.t) :
  set_attributes u (set_attributes u c) = set_attributes u c.
Proof.
  unfold set_attributes. simpl.
  destruct u as [t d s ct tm g gv sa ea r cb]; simpl.
  destruct t, d, s, ct, tm, g, gv, sa, ea, r, cb; reflexivity.
Qed.

Lemma set_attributes_nothing (c : Challenge.t) :
  set_attributes ChallengeUpdate.nothing c = c.
Proof. now destruct c. Qed.

(** The first row that passes is found again after the rows that pass have
    been replaced by a row that passes. *)
Lemma find_update_where {A : Type} (p : A -> bool) (y : A) (l : list A) (x : A) :
  p y = true -> find p l = Some x -> find p (update_where p (fun _ => y) l) = Some y.
Proof.
  intros Hy. unfold update_where. induction l as [|a l IH]; simpl; [discriminate|].
  destruct (p a) eqn:Ea.
  - intros _. now rewrite Hy.
  - rewrite Ea. exact IH.
Qed.

Lemma update_where_twice {A : Type} (p : A -> bool) (y : A) (l : list A) :
  p y = true ->
  update_where p (fun _ => y) (update_where p (fun _ => y) l)
  = update_where p (fun _ => y) l.
Proof.
  intros Hy. unfold update_where. rewrite map_map. apply map_ext.
  intros a. destruct (p a) eqn:Ea; [now rewrite Hy|now rewrite Ea].
Qed.

(** X5.  [update_challenge] returns [None] and changes nothing for an id no
    challenge has.  Otherwise it returns the challenge found with each field
    that was provided set to the value provided and each other field as it
    was; the id and the status of the challenge are not among the fields it
    sets, and [get_challenge] then returns the updated challenge.  Applying
    the same update again changes nothing more.  The challenges of other
    ids and the memberships are as before, and no challenge is added or
    removed. *)
Theorem update_challenge_spec
    (db : Session) (challenge_id : Z) (challenge : ChallengeUpdate.t) :
  ((forall c, In c (challenges db) -> Challenge.challenge_id c <> challenge_id) ->
   update_challenge db challenge_id challenge = (db, None))
  /\ (forall c, get_challenge db challenge_id = Some c ->
                snd (update_challenge db challenge_id challenge)
                = Some (set_attributes challenge c)
                /\ Challenge.challenge_id (set_attributes challenge c) = challenge_id
                /\ Challenge.status (set_attributes challenge c) = Challenge.status c
                /\ Challenge.title (set_attributes challenge c)
                   = match ChallengeUpdate.title challenge with
                     | Some value => value
                     | None => Challenge.title c
                     end
                /\ Challenge.description (set_attributes challenge c)
                   = match ChallengeUpdate.description challenge with
                     | Some value => value
                     | None => Challenge.description c
                     end
                /\ Challenge.scope (set_attributes challenge c)
                   = match ChallengeUpdate.scope challenge with
                     | Some value => value
                     | None => Challenge.scope c
                     end
                /\ Challenge.completion_type (set_attributes challenge c)
                   = match ChallengeUpdate.completion_type challenge with
                     | Some value => value
                     | None => Challenge.completion_type c
                     end
                /\ Challenge.target_mode (set_attributes challenge c)
                   = match ChallengeUpdate.target_mode challenge with
                     | Some value => value
                     | None => Challenge.target_mode c
                     end
                /\ Challenge.goal_type (set_attributes challenge c)
                   = match ChallengeUpdate.goal_type challenge with
                     | Some value => value
                     | None => Challenge.goal_type c
                     end
                /\ Challenge.goal_target_value (set_attributes challenge c)
                   = match ChallengeUpdate.goal_target_value challenge with
                     | Some value => value
                     | None => Challenge.goal_target_value c
                     end
                /\ Challenge.start_at (set_attributes challenge c)
                   = match ChallengeUpdate.start_at challenge with
                     | Some value => value
                     | None => Challenge.start_at c
                     end
                /\ Challenge.end_at (set_attributes challenge c)
                   = match ChallengeUpdate.end_at challenge with
                     | Some value => value
                     | None => Challenge.end_at c
                     end
                /\ Challenge.reward (set_attributes challenge c)
                   = match ChallengeUpdate.reward challenge with
                     | Some value => value
                     | None => Challenge.reward c
                     end
                /\ Challenge.created_by (set_attributes challenge c)
                   = match ChallengeUpdate.created_by challenge with
                     | Some value => value
                     | None => Challenge.created_by c
                     end
                /\ get_challenge (fst (update_challenge db challenge_id challenge))
                     challenge_id
                   = Some (set_attributes challenge c))
  /\ update_challenge (fst (update_challenge db challenge_id challenge))
       challenge_id challenge
     = update_challenge db challenge_id challenge
  /\ challenge_members (fst (update_challenge db challenge_id challenge))
     = challenge_members db
  /\ (forall r, Challenge.challenge_id r <> challenge_id ->
        (In r (challenges (fst (update_challenge db challenge_id challenge)))
         <-> In r (challenges db)))
  /\ map Challenge.challenge_id (challenges (fst (update_challenge db challenge_id challenge)))
     = map Challenge.challenge_id (challenges db).
Proof.
  unfold update_challenge, get_challenge.
  destruct (find _ (challenges db)) as [c|] eqn:E.
  - pose proof (find_some _ _ E) as [Hin Hid]. apply Z.eqb_eq in Hid.
    rewrite Hid.
    assert (Hy : (fun r => Challenge.challenge_id r =? challenge_id)
                   (set_attributes challenge c) = true).
    { simpl. now apply Z.eqb_eq. }
    split; [|split; [|split; [|split; [|split]]]].
    + intros Hnone. now destruct (Hnone c Hin).
    + intros c' [= <-]. cbn [fst snd challenges set_challenges].
      repeat split; auto.
      apply (find_update_where _ _ _ _ Hy E).
    + cbn [fst snd challenges set_challenges].
      rewrite (find_update_where _ _ _ _ Hy E).
      cbn [Challenge.challenge_id set_attributes]. rewrite Hid.
      rewrite set_attributes_twice. f_equal.
      rewrite (update_where_twice _ _ _ Hy). reflexivity.
    + reflexivity.
    + intros r Hr. cbn [fst challenges set_challenges]. split.
      * intros H. apply update_where_In in H. destruct H as (x & Hx & ->).
        destruct (Challenge.challenge_id x =? challenge_id) eqn:Ex; [|assumption].
        now destruct Hr.
      * intros H. apply update_where_In. exists r. split; [assumption|].
        apply Z.eqb_neq in Hr. now rewrite Hr.
    + cbn [fst challenges set_challenges]. unfold update_where. rewrite map_map.
      apply map_ext. intros a.
      destruct (Challenge.challenge_id a =? challenge_id) eqn:Ea; [|reflexivity].
      apply Z.eqb_eq in Ea. cbn. congruence.
  - split; [|split; [|split; [|split; [|split]]]]; try reflexivity.
    + discriminate.
    + cbn [fst]. now rewrite E.
Qed.

Lemma update_where_same {A : Type} (key : A -> Z) (y : A) (l : list A) :
  NoDup (map key l) -> In y l ->
  update_where (fun r => key r =? key y) (fun _ => y) l = l.
Proof.
  intros Hnd Hin. unfold update_where.
  rewrite <- (map_id l) at 2. apply map_ext_in. intros a Ha.
  destruct (key a =? key y) eqn:E; [|reflexivity].
  apply Z.eqb_eq in E.
  clear -Hnd Hin Ha E. induction l as [|b l IH]; [destruct Hin|].
  simpl in Hnd. inversion Hnd as [|? ? Hb Hl]; subst.
  destruct Hin as [->|Hin], Ha as [->|Ha]; auto.
  - exfalso. apply Hb. rewrite <- E. now apply in_map.
  - exfalso. apply Hb. rewrite E. now apply in_map.
Qed.

(** X6.  With unique challenge ids, an update that provides no field leaves the
    state as it was and returns the challenge of the id, if there is one. *)
Theorem update_challenge_nothing (db : Session) (challenge_id : Z) :
  NoDup (map Challenge.challenge_id (challenges db)) ->
  update_challenge db challenge_id ChallengeUpdate.nothing
  = (db, get_challenge db challenge_id).
Proof.
  intros Hnd. unfold update_challenge, get_challenge.
  destruct (find _ (challenges db)) as [c|] eqn:E; [|reflexivity].
  pose proof (find_some _ _ E) as [Hin _].
  rewrite set_attributes_nothing.
  rewrite (update_where_same Challenge.challenge_id c _ Hnd Hin).
  now destruct db.
Qed.

Lemma update_challenge_nothing_witness :
  NoDup (map Challenge.challenge_id
           (challenges (set_challenges [sample_challenge TRIP_COUNT (PyFloat.of_int 5)]
                          empty_db)))
  /\ update_challenge (set_challenges [sample_challenge TRIP_COUNT (PyFloat.of_int 5)]
                         empty_db) 1 ChallengeUpdate.nothing
     = (set_challenges [sample_challenge TRIP_COUNT (PyFloat.of_int 5)] empty_db,
        get_challenge (set_challenges [sample_challenge TRIP_COUNT (PyFloat.of_int 5)]
                         empty_db) 1).
Proof.
  assert (H : NoDup (map Challenge.challenge_id
                       (challenges
                          (set_challenges [sample_challenge TRIP_COUNT (PyFloat.of_int 5)]
                             empty_db)))).
  { simpl. constructor; [intros []|constructor]. }
  split; [exact H|]. exact (update_challenge_nothing _ 1 H).
Defined.

(** ** get_users, get_challenges: pages *)

Lemma firstn_plus {A : Type} (a b : nat) (l : list A) :
  firstn (a + b) l = firstn a l ++ firstn b (skipn a l).
Proof.
  revert l. induction a as [|a IH]; intros l; simpl; [reflexivity|].
  destruct l as [|x l]; simpl.
  - now rewrite firstn_nil.
  - now rewrite IH.
Qed.

Lemma paginate_pages {A : Type} (skip a b : nat) (rows : list A) :
  (List.length (paginate skip a rows) <= a)%nat
  /\ paginate skip (a + b) rows = paginate skip a rows ++ paginate (skip + a) b rows
  /\ ((List.length rows <= skip)%nat -> paginate skip a rows = [])
  /\ paginate 0 (List.length rows) rows = rows
  /\ (forall x, In x (paginate skip a rows) -> In x rows).
Proof.
  unfold paginate. split; [|split; [|split; [|split]]].
  - apply firstn_le_length.
  - rewrite firstn_plus. f_equal. rewrite skipn_skipn. f_equal. f_equal. lia.
  - intros H. rewrite skipn_all2 by exact H. apply firstn_nil.
  - simpl. apply firstn_all.
  - intros x Hx.
    rewrite <- (firstn_skipn skip rows), <- (firstn_skipn a (skipn skip rows)).
    apply in_or_app. right. apply in_or_app. now left.
Qed.

(** X7.  A page of [get_users] or [get_challenges] has at most [limit] rows, all
    of them rows of the table; the page of [a + b] rows from [skip] is the
    page of [a] rows from [skip] followed by the page of [b] rows from
    [skip + a], so that consecutive pages neither repeat nor miss a row; a
    page that starts at or after the end is empty; and the page of all rows
    is the table. *)
Theorem get_users_get_challenges_pages (db : Session) (skip a b : nat) :
  ((List.length (get_users db skip a) <= a)%nat
   /\ get_users db skip (a + b) = get_users db skip a ++ get_users db (skip + a) b
   /\ ((List.length (users db) <= skip)%nat -> get_users db skip a = [])
   /\ get_users db 0 (List.length (users db)) = users db
   /\ (forall x, In x (get_users db skip a) -> In x (users db)))
  /\ ((List.length (get_challenges db skip a) <= a)%nat
      /\ get_challenges db skip (a + b)
         = get_challenges db skip a ++ get_challenges db (skip + a) b
      /\ ((List.length (challenges db) <= skip)%nat -> get_challenges db skip a = [])
      /\ get_challenges db 0 (List.length (challenges db)) = challenges db
      /\ (forall x, In x (get_challenges db skip a) -> In x (challenges db))).
Proof.
  split; apply paginate_pages.
Qed.

(** ** The state each write leaves *)

Lemma create_user_state (db : Session) (user : UserCreate.t) :
  fst (create_user db user)
  = set_challenge_members
      (challenge_members db
       ++ map (fun c => ChallengeMember.mk (user_id_seq db) (Challenge.challenge_id c)
                          ChallengeMember.is_completed_default)
            (filter (fun c => scope_eqb (Challenge.scope c) PERSONAL) (challenges db)))
      (set_user_id_seq (user_id_seq db + 1)
         (set_users (users db ++ [snd (create_user db user)]) db)).
Proof.
  unfold create_user. cbn [fst snd].
  change (challenges (set_user_id_seq _ (set_users _ db))) with (challenges db).
  cbn [User.user_id]. rewrite enroll_all. reflexivity.
Qed.

Lemma create_user_id (db : Session) (user : UserCreate.t) :
  User.user_id (snd (create_user db user)) = user_id_seq db.
Proof. reflexivity. Qed.

Lemma delete_user_state (db : Session) (user_id : Z) :
  fst (delete_user db user_id)
  = match get_user_by_id db user_id with
    | Some _ => without_user db user_id
    | None => db
    end.
Proof.
  unfold delete_user, get_user_by_id.
  destruct (find _ (users db)) as [u|] eqn:E; [|reflexivity].
  apply find_some in E. destruct E as [_ E]. apply Z.eqb_eq in E. now rewrite E.
Qed.

Lemma create_mobility_log_state (db : Session) (log : MobilityLogCreate.t)
    (db' : Session) (row : MobilityLog.t) :
  create_mobility_log db log = Ok (db', row) ->
  db' = with_log db row
  /\ MobilityLog.log_id row = log_id_seq db
  /\ MobilityLog.user_id row = MobilityLogCreate.user_id log
  /\ MobilityLog.mode row = MobilityLogCreate.mode log
  /\ MobilityLog.started_at row = MobilityLogCreate.started_at log
  /\ MobilityLog.ended_at row = MobilityLogCreate.ended_at log.
Proof.
  unfold create_mobility_log.
  destruct (PyFloat.truediv _ _) as [q|]; [|discriminate]. cbn [bind].
  destruct (PyFloat.to_int q) as [z|]; [|discriminate]. cbn [bind].
  destruct (integer_column z) as [n|]; [|discriminate]. cbn [bind].
  intros [= <- <-]. repeat split.
Qed.

(** The challenges after [update_challenge_status_if_completed]: as before,
    or those of a completion.  No other table than the memberships
    changes. *)
Lemma update_challenge_status_if_completed_tables
    (db : Session) (challenge : Challenge.t) (progress : PyFloat.float) (user_id : Z) :
  let db' := fst (update_challenge_status_if_completed db challenge progress user_id) in
  users db' = users db
  /\ user_id_seq db' = user_id_seq db
  /\ mobility_logs db' = mobility_logs db
  /\ log_id_seq db' = log_id_seq db
  /\ (challenges db' = challenges db
      \/ challenges db' = completed_challenges db challenge).
Proof.
  cbv zeta. unfold update_challenge_status_if_completed.
  destruct (_ && _ && _); [|cbn [fst]; tauto].
  cbn [fst]. fold (completed_challenges db challenge).
  assert (E : match find (fun r => Challenge.challenge_id r
                                   =? Challenge.challenge_id challenge)
                      (challenges db) with
              | Some _ =>
                  set_challenges
                    (update_where
                       (fun r => Challenge.challenge_id r
                                 =? Challenge.challenge_id challenge)
                       (Challenge.with_status COMPLETED) (challenges db)) db
              | None =>
                  set_challenges
                    (challenges db ++ [Challenge.with_status COMPLETED challenge]) db
              end
              = set_challenges (completed_challenges db challenge) db).
  { unfold completed_challenges. now destruct (find _ (challenges db)). }
  rewrite E.
  destruct (find (member_filter _ _) _); cbn; tauto.
Qed.

(** ** Keys *)

Lemma NoDup_map_filter {A : Type} (key : A -> Z) (p : A -> bool) (l : list A) :
  NoDup (map key l) -> NoDup (map key (filter p l)).
Proof.
  induction l as [|a l IH]; simpl; intros H; [constructor|].
  inversion H as [|? ? Ha Hl]; subst.
  destruct (p a); simpl; [|auto].
  constructor; [|auto]. intros Hin. apply Ha.
  apply in_map_iff in Hin. destruct Hin as (x & Hx & Hin).
  apply filter_In in Hin. apply in_map_iff. exists x. tauto.
Qed.

Lemma NoDup_map_fresh {A : Type} (key : A -> Z) (l : list A) (x : A) :
  NoDup (map key l) -> (forall r, In r l -> key r < key x) ->
  NoDup (map key (l ++ [x])).
Proof.
  induction l as [|a l IH]; simpl; intros H Hlt.
  - constructor; [intros []|constructor].
  - inversion H as [|? ? Ha Hl]; subst. constructor.
    + rewrite map_app, in_app_iff. simpl. intros [Hin|[Hin|[]]]; [now apply Ha|].
      specialize (Hlt a (or_introl eq_refl)). lia.
    + apply IH; [assumption|]. intros r Hr. apply Hlt. now right.
Qed.

Lemma NoDup_app_fresh (l : list Z) (k : Z) : NoDup l -> ~ In k l -> NoDup (l ++ [k]).
Proof.
  induction l as [|a l IH]; simpl; intros H Hk.
  - constructor; [intros []|constructor].
  - inversion H as [|? ? Ha Hl]; subst. constructor.
    + rewrite in_app_iff. simpl. intros [Hin|[Hin|[]]]; [now apply Ha|].
      apply Hk. now left.
    + apply IH; [assumption|]. intros Hin. apply Hk. now right.
Qed.

Lemma update_where_keys {A : Type} (key : A -> Z) (p : A -> bool) (f : A -> A)
    (l : list A) :
  (forall r, p r = true -> key (f r) = key r) ->
  map key (update_where p f l) = map key l.
Proof.
  intros H. unfold update_where. rewrite map_map. apply map_ext_in.
  intros a _. destruct (p a) eqn:E; [now apply H|reflexivity].
Qed.

Lemma keys_ok_same (db db' : Session) :
  users db' = users db -> user_id_seq db' = user_id_seq db ->
  mobility_logs db' = mobility_logs db -> log_id_seq db' = log_id_seq db ->
  map Challenge.challenge_id (challenges db') = map Challenge.challenge_id (challenges db) ->
  keys_ok db -> keys_ok db'.
Proof.
  unfold keys_ok. intros -> -> -> -> ->. tauto.
Qed.

Lemma run_keys (c : call) (db : Session) : keys_ok db -> keys_ok (run c db).
Proof.
  intros H. destruct c as [user|uid|log|cid upd|cid|uid cid|uid cid|ch p uid|uid cid p];
    cbn [run].
  - rewrite create_user_state.
    destruct H as (Hu & Hun & Hl & Hln & Hc).
    unfold keys_ok. cbn. repeat split; auto.
    + intros u Hin. apply in_app_iff in Hin. destruct Hin as [Hin|[<-|[]]].
      * specialize (Hu u Hin). lia.
      * cbn. lia.
    + apply NoDup_map_fresh; [assumption|]. intros r Hr. cbn. now apply Hu.
  - rewrite delete_user_state. destruct (get_user_by_id db uid); [|assumption].
    destruct H as (Hu & Hun & Hl & Hln & Hc).
    unfold keys_ok, without_user, delete_where. cbn. repeat split.
    + intros u Hin. apply filter_In in Hin. now apply Hu.
    + now apply NoDup_map_filter.
    + intros l Hin. apply filter_In in Hin. now apply Hl.
    + now apply NoDup_map_filter.
    + now apply NoDup_map_filter.
  - destruct (create_mobility_log db log) as [[db' row]|] eqn:E; [|assumption].
    apply create_mobility_log_state in E. destruct E as (-> & Hid & _).
    destruct H as (Hu & Hun & Hl & Hln & Hc).
    unfold keys_ok, with_log. cbn. repeat split; auto.
    + intros l Hin. apply in_app_iff in Hin. destruct Hin as [Hin|[<-|[]]].
      * specialize (Hl l Hin). lia.
      * lia.
    + apply NoDup_map_fresh; [assumption|]. intros r Hr. rewrite Hid. now apply Hl.
  - unfold update_challenge. destruct (find _ (challenges db)); [|assumption].
    cbn [fst]. apply (keys_ok_same db); try reflexivity; [|assumption].
    cbn. apply update_where_keys. intros r Hr. apply Z.eqb_eq in Hr. now rewrite Hr.
  - unfold delete_challenge. destruct (find _ (challenges db)); [|assumption].
    cbn [fst]. destruct H as (Hu & Hun & Hl & Hln & Hc).
    unfold keys_ok, delete_where. cbn. repeat split; auto.
    now apply NoDup_map_filter.
  - unfold join_challenge. destruct (find _ (challenge_members db)); [assumption|].
    cbn [fst]. now apply (keys_ok_same db).
  - unfold leave_challenge. destruct (find _ (challenge_members db)); [|assumption].
    cbn [fst]. now apply (keys_ok_same db).
  - destruct (update_challenge_status_if_completed_tables db ch p uid)
      as (E1 & E2 & E3 & E4 & E5).
    destruct H as (Hu & Hun & Hl & Hln & Hc).
    unfold keys_ok. rewrite E1, E2, E3, E4. repeat split; auto.
    destruct E5 as [->| ->]; [assumption|]. unfold completed_challenges.
    destruct (find _ (challenges db)) eqn:E.
    + rewrite update_where_keys; [assumption|]. now intros r _.
    + rewrite map_app. cbn [map Challenge.with_status Challenge.challenge_id].
      apply NoDup_app_fresh; [assumption|]. intros Hin.
      apply in_map_iff in Hin. destruct Hin as (x & Hx & Hin).
      apply Z.eqb_eq in Hx. now rewrite (find_none _ _ E x Hin) in Hx.
  - unfold update_personal_challenge_progress.
    destruct (find _ (challenge_members db)); [destruct (find _ (challenges db))|];
      assumption.
Qed.

(** X8.  No sequence of calls breaks the keys: from a state whose user, log and
    challenge ids are unique, with the user and log ids below the next
    values of their sequences, the calls leave such a state; so a user or a
    log that is created never takes the id of an existing row. *)
Theorem run_keeps_keys (cs : list call) (db : Session) :
  keys_ok db -> keys_ok (run_all cs db).
Proof.
  unfold run_all. revert db. induction cs as [|c cs IH]; intros db H; cbn [fold_left].
  - exact H.
  - apply IH. now apply run_keys.
Qed.

Lemma run_keeps_keys_witness :
  keys_ok empty_db
  /\ keys_ok (run_all [CreateUser ann; CreateMobilityLog (ride (PyFloat.of_int 10));
                       DeleteUser 1; CreateUser ann] empty_db).
Proof.
  assert (H : keys_ok empty_db).
  { unfold keys_ok, empty_db. cbn. repeat split; try (intros ? []); constructor. }
  split; [exact H|]. exact (run_keeps_keys _ empty_db H).
Defined.

(** ** The status of a challenge *)

(** A challenge row after a call is COMPLETED, or it has the id and the
    status of a row from before the call. *)
Lemma run_challenges (c : call) (db : Session) (r' : Challenge.t) :
  In r' (challenges (run c db)) ->
  Challenge.status r' = COMPLETED
  \/ exists r, In r (challenges db)
               /\ Challenge.challenge_id r = Challenge.challenge_id r'
               /\ Challenge.status r = Challenge.status r'.
Proof.
  assert (Hsame : In r' (challenges db) ->
                  Challenge.status r' = COMPLETED
                  \/ exists r, In r (challenges db)
                               /\ Challenge.challenge_id r = Challenge.challenge_id r'
                               /\ Challenge.status r = Challenge.status r').
  { intros Hin. right. exists r'. auto. }
  destruct c as [user|uid|log|cid upd|cid|uid cid|uid cid|ch p uid|uid cid p];
    cbn [run].
  - rewrite create_user_state. exact Hsame.
  - rewrite delete_user_state. destruct (get_user_by_id db uid); [|exact Hsame].
    unfold without_user. cbn. intros Hin. apply delete_where_In in Hin. tauto.
  - destruct (create_mobility_log db log) as [[db' row]|] eqn:E; [|exact Hsame].
    apply create_mobility_log_state in E. destruct E as (-> & _). exact Hsame.
  - unfold update_challenge.
    destruct (find _ (challenges db)) as [c0|] eqn:E; [|exact Hsame].
    cbn. intros Hin. apply update_where_In in Hin. destruct Hin as (x & Hx & ->).
    destruct (Challenge.challenge_id x =? Challenge.challenge_id c0) eqn:Ex.
    + apply find_some in E. right. exists c0. cbn. tauto.
    + right. exists x. auto.
  - unfold delete_challenge.
    destruct (find _ (challenges db)) as [c0|]; [|exact Hsame].
    cbn. intros Hin. apply delete_where_In in Hin. tauto.
  - unfold join_challenge. destruct (find _ (challenge_members db)); exact Hsame.
  - unfold leave_challenge. destruct (find _ (challenge_members db)); exact Hsame.
  - destruct (update_challenge_status_if_completed_tables db ch p uid)
      as (_ & _ & _ & _ & [-> | ->]); [exact Hsame|].
    intros Hin.
    destruct (completed_challenges_rows db ch) as (Hdone & Hother & _).
    destruct (Z.eq_dec (Challenge.challenge_id r') (Challenge.challenge_id ch)) as [E|E].
    + left. now apply Hdone.
    + apply Hsame. now apply Hother.
  - unfold update_personal_challenge_progress.
    destruct (find _ (challenge_members db)); [destruct (find _ (challenges db))|];
      exact Hsame.
Qed.

Lemma run_all_challenges (cs : list call) (db : Session) (r' : Challenge.t) :
  In r' (challenges (run_all cs db)) ->
  Challenge.status r' = COMPLETED
  \/ exists r, In r (challenges db)
               /\ Challenge.challenge_id r = Challenge.challenge_id r'
               /\ Challenge.status r = Challenge.status r'.
Proof.
  unfold run_all. revert db. induction cs as [|c cs IH]; intros db; cbn [fold_left].
  - intros Hin. right. exists r'. auto.
  - intros Hin. apply IH in Hin. destruct Hin as [Hin|(r1 & Hin1 & Hid1 & Hs1)];
      [now left|].
    apply run_challenges in Hin1. destruct Hin1 as [Hdone|(r & Hin & Hid & Hs)].
    + left. congruence.
    + right. exists r. split; [assumption|]. split; congruence.
Qed.

(** X9.  COMPLETED is final under the calls of [call]: when every challenge
    of the id [challenge_id] is COMPLETED, the challenge found under that id
    after any sequence of the calls is COMPLETED.  ([update_challenge] sets
    the fields that [create_challenge] reads from the schema; the status is
    not one.) *)
Theorem completed_stays_completed
    (cs : list call) (db : Session) (challenge_id : Z) (c : Challenge.t) :
  (forall r, In r (challenges db) -> Challenge.challenge_id r = challenge_id ->
             Challenge.status r = COMPLETED) ->
  get_challenge (run_all cs db) challenge_id = Some c ->
  Challenge.status c = COMPLETED.
Proof.
  intros Hdone Hget. unfold get_challenge in Hget. apply find_some in Hget.
  destruct Hget as [Hin Hid]. apply Z.eqb_eq in Hid.
  apply run_all_challenges in Hin. destruct Hin as [Hs|(r & Hin & Hidr & Hs)];
    [assumption|].
  rewrite <- Hs. apply Hdone; congruence.
Qed.

Lemma completed_stays_completed_witness :
  (forall r, In r (challenges (db_with_challenge finished_challenge)) ->
             Challenge.challenge_id r = 1 -> Challenge.status r = COMPLETED)
  /\ get_challenge
       (run_all [UpdateChallenge 1 retitle; JoinChallenge 7 1; DeleteUser 7]
          (db_with_challenge finished_challenge)) 1
     = Some (set_attributes retitle finished_challenge)
  /\ Challenge.status (set_attributes retitle finished_challenge) = COMPLETED.
Proof.
  assert (H1 : forall r, In r (challenges (db_with_challenge finished_challenge)) ->
                         Challenge.challenge_id r = 1 -> Challenge.status r = COMPLETED).
  { intros r [<-|[]] _. reflexivity. }
  assert (H2 : get_challenge
                 (run_all [UpdateChallenge 1 retitle; JoinChallenge 7 1; DeleteUser 7]
                    (db_with_challenge finished_challenge)) 1
               = Some (set_attributes retitle finished_challenge))
    by (vm_compute; reflexivity).
  split; [exact H1|]. split; [exact H2|].
  exact (completed_stays_completed _ _ 1 _ H1 H2).
Defined.

(** ** Users: creating, finding, signing in, deleting *)

Lemma find_app_some {A : Type} (p : A -> bool) (l1 l2 : list A) (x : A) :
  find p l1 = Some x -> find p (l1 ++ l2) = Some x.
Proof.
  induction l1 as [|a l1 IH]; simpl; [discriminate|].
  destruct (p a); [trivial|exact IH].
Qed.

Lemma find_ext_in {A : Type} (p q : A -> bool) (l : list A) :
  (forall x, In x l -> p x = q x) -> find p l = find q l.
Proof.
  induction l as [|a l IH]; intros H; simpl; [reflexivity|].
  rewrite (H a (or_introl eq_refl)). destruct (q a); [reflexivity|].
  apply IH. intros x Hx. apply H. now right.
Qed.

Lemma find_filter {A : Type} (p q : A -> bool) (l : list A) :
  (forall x, p x = true -> q x = true) -> find p (filter q l) = find p l.
Proof.
  intros H. induction l as [|a l IH]; simpl; [reflexivity|].
  destruct (q a) eqn:Eq; simpl.
  - now rewrite IH.
  - destruct (p a) eqn:Ep; [|exact IH]. rewrite (H a Ep) in Eq. discriminate.
Qed.

Lemma filter_filter_implied {A : Type} (p q : A -> bool) (l : list A) :
  (forall x, p x = true -> q x = true) -> filter p (filter q l) = filter p l.
Proof.
  intros H. induction l as [|a l IH]; simpl; [reflexivity|].
  destruct (q a) eqn:Eq; simpl.
  - now rewrite IH.
  - destruct (p a) eqn:Ep; [|exact IH]. rewrite (H a Ep) in Eq. discriminate.
Qed.

Lemma delete_where_app {A : Type} (p : A -> bool) (l1 l2 : list A) :
  delete_where p (l1 ++ l2) = delete_where p l1 ++ delete_where p l2.
Proof. apply filter_app. Qed.

Lemma delete_where_all_true {A : Type} (p : A -> bool) (l : list A) :
  (forall x, In x l -> p x = true) -> delete_where p l = [].
Proof.
  unfold delete_where. induction l as [|a l IH]; intros H; simpl; [reflexivity|].
  rewrite (H a (or_introl eq_refl)). simpl. apply IH. intros x Hx. apply H. now right.
Qed.

(** Reads of a table after writes to the tables. *)
Ltac read_tables :=
  cbn [users challenges challenge_members mobility_logs carbon_factors credits_ledger
       garden_watering_logs user_gardens user_achievements notifications ingest_raw
       user_id_seq log_id_seq
       set_users set_challenges set_challenge_members set_mobility_logs
       set_credits_ledger set_garden_watering_logs set_user_gardens
       set_user_achievements set_notifications set_ingest_raw
       set_user_id_seq set_log_id_seq].

(** X10.  A user just created is found by the id [create_user] returned, when no
    earlier user has that id (as with ids below the next value of the key
    sequence), and by the username, when no earlier user has it.  Lookups
    of other ids give what they gave before. *)
Theorem create_user_then_get (db : Session) (user : UserCreate.t) :
  (forall u, In u (users db) -> User.user_id u <> user_id_seq db) ->
  get_user_by_id (fst (create_user db user)) (User.user_id (snd (create_user db user)))
  = Some (snd (create_user db user))
  /\ (forall user_id, user_id <> User.user_id (snd (create_user db user)) ->
        get_user_by_id (fst (create_user db user)) user_id = get_user_by_id db user_id)
  /\ ((forall u, In u (users db) -> User.username u <> UserCreate.username user) ->
      get_user_by_username (fst (create_user db user)) (UserCreate.username user)
      = Some (snd (create_user db user))).
Proof.
  intros Hfresh. rewrite create_user_state, create_user_id.
  unfold get_user_by_id, get_user_by_username. cbn [users set_challenge_members
    set_user_id_seq set_users].
  split; [|split].
  - rewrite find_app_none.
    + cbn [find]. rewrite create_user_id, Z.eqb_refl. reflexivity.
    + apply find_none_all. intros u Hu. apply Z.eqb_neq. now apply Hfresh.
  - intros user_id Hne.
    destruct (find (fun u => User.user_id u =? user_id) (users db)) as [u|] eqn:E.
    + now apply find_app_some.
    + rewrite (find_app_none _ _ _ E). cbn [find]. rewrite create_user_id.
      apply Z.eqb_neq in Hne. rewrite Z.eqb_sym in Hne. now rewrite Hne.
  - intros Hname. rewrite find_app_none.
    + cbn. now rewrite String.eqb_refl.
    + apply find_none_all. intros u Hu. apply String.eqb_neq. now apply Hname.
Qed.

Lemma create_user_then_get_witness :
  (forall u, In u (users empty_db) -> User.user_id u <> user_id_seq empty_db)
  /\ get_user_by_id (fst (create_user empty_db ann))
       (User.user_id (snd (create_user empty_db ann)))
     = Some (snd (create_user empty_db ann)).
Proof.
  assert (H : forall u, In u (users empty_db) -> User.user_id u <> user_id_seq empty_db)
    by (intros u []).
  split; [exact H|]. exact (proj1 (create_user_then_get empty_db ann H)).
Defined.

(** X11.  Signing in after [create_user], where it does not depend on which
    of several matching rows the query returns.  An identifier that no user
    had and that is the new user's username or email signs the new user in
    with the credential given at creation, and with no other credential.
    An identifier that exactly one user had, and that is neither the
    username nor the email of the new user, signs that user in with its
    stored credential and nobody with another.  An identifier that neither
    an earlier user nor the new one has signs nobody in. *)
Theorem create_user_then_authenticate
    (db : Session) (user : UserCreate.t) (identifier credential : string) :
  ((forall v, In v (users db) ->
              User.username v <> identifier /\ User.email v <> identifier) ->
   UserCreate.username user = identifier \/ UserCreate.email user = identifier ->
   authenticate_user (fst (create_user db user)) identifier
     (UserCreate.password_hash user)
   = Some (snd (create_user db user))
   /\ (credential <> UserCreate.password_hash user ->
       authenticate_user (fst (create_user db user)) identifier credential = None))
  /\ (forall v,
         In v (users db) ->
         User.username v = identifier \/ User.email v = identifier ->
         (forall w, In w (users db) ->
                    User.username w = identifier \/ User.email w = identifier ->
                    w = v) ->
         UserCreate.username user <> identifier /\ UserCreate.email user <> identifier ->
         (User.password_hash v = credential ->
          authenticate_user (fst (create_user db user)) identifier credential = Some v)
         /\ (User.password_hash v <> credential ->
             authenticate_user (fst (create_user db user)) identifier credential = None))
  /\ ((forall v, In v (users db) ->
                 User.username v <> identifier /\ User.email v <> identifier) ->
      UserCreate.username user <> identifier /\ UserCreate.email user <> identifier ->
      authenticate_user (fst (create_user db user)) identifier credential = None).
Proof.
  rewrite create_user_state. unfold authenticate_user.
  cbn [users set_challenge_members set_user_id_seq set_users].
  set (p := fun u => String.eqb (User.username u) identifier
                     || String.eqb (User.email u) identifier).
  split; [|split].
  - intros Hnone Hnew. rewrite find_app_none.
    + cbn [find]. unfold p at 1. unfold p at 1.
      assert (E : String.eqb (User.username (snd (create_user db user))) identifier
                  || String.eqb (User.email (snd (create_user db user))) identifier = true).
      { apply identifier_test. exact Hnew. }
      rewrite E. cbn [snd create_user User.password_hash]. split.
      * now rewrite String.eqb_refl.
      * intros Hc. apply not_eq_sym, String.eqb_neq in Hc. now rewrite Hc.
    + apply find_none_all. intros v Hv. now apply identifier_test_false, Hnone.
  - intros v Hin Hv Honly Hnew.
    destruct (find_some_exists p (users db)) as [w Hw].
    { exists v. split; [assumption|]. now apply identifier_test. }
    rewrite (find_app_some _ _ _ _ Hw).
    apply find_some in Hw. destruct Hw as [Hinw Hw]. apply identifier_test in Hw.
    rewrite (Honly w Hinw Hw). split.
    + intros Hc. apply String.eqb_eq in Hc. now rewrite Hc.
    + intros Hc. apply String.eqb_neq in Hc. now rewrite Hc.
  - intros Hnone Hnew. rewrite find_app_none.
    + cbn [find]. unfold p at 1.
      assert (E : String.eqb (User.username (snd (create_user db user))) identifier
                  || String.eqb (User.email (snd (create_user db user))) identifier = false).
      { apply identifier_test_false. exact Hnew. }
      now rewrite E.
    + apply find_none_all. intros v Hv. now apply identifier_test_false, Hnone.
Qed.

(** X12.  [get_user_by_username] and [authenticate_user] agree on usernames: the
    user that signs in under its username is the one the username lookup
    returns; and when no user has the name as email, the user the lookup
    returns is the one that signs in with its stored credential, and nobody
    signs in under a name the lookup does not find. *)
Theorem authenticate_user_by_username
    (db : Session) (username password : string) (u : User.t) :
  (authenticate_user db username password = Some u -> User.username u = username ->
   get_user_by_username db username = Some u)
  /\ ((forall v, In v (users db) -> User.email v <> username) ->
      (get_user_by_username db username = Some u ->
       authenticate_user db username (User.password_hash u) = Some u)
      /\ (get_user_by_username db username = None ->
          authenticate_user db username password = None)).
Proof.
  unfold authenticate_user, get_user_by_username. split.
  - destruct (find _ (users db)) as [w|] eqn:E; [|discriminate].
    destruct (negb _); [discriminate|]. intros [= ->] Hname.
    apply find_first in E. destruct E as (l1 & l2 & -> & Hl1 & _).
    apply find_first. exists l1, l2. split; [reflexivity|]. split.
    + intros y Hy. specialize (Hl1 y Hy). now apply orb_false_iff in Hl1.
    + now apply String.eqb_eq.
  - intros Hmail.
    rewrite (find_ext_in
               (fun u => String.eqb (User.username u) username
                         || String.eqb (User.email u) username)
               (fun u => String.eqb (User.username u) username)).
    + split; intros ->; [|reflexivity]. now rewrite String.eqb_refl.
    + intros x Hx. pose proof (Hmail x Hx) as Hne. apply String.eqb_neq in Hne.
      rewrite Hne. apply orb_false_r.
Qed.

(** X13.  After [delete_user] the id is no longer found and a second deletion
    finds nothing to do; the users of other ids are found as before; and
    nobody signs in as the deleted user: whoever signs in is a user from
    before with another id. *)
Theorem delete_user_then (db : Session) (user_id : Z) :
  get_user_by_id (fst (delete_user db user_id)) user_id = None
  /\ delete_user (fst (delete_user db user_id)) user_id
     = (fst (delete_user db user_id), None)
  /\ (forall other, other <> user_id ->
        get_user_by_id (fst (delete_user db user_id)) other = get_user_by_id db other)
  /\ (forall identifier credential u,
        authenticate_user (fst (delete_user db user_id)) identifier credential = Some u ->
        In u (users db) /\ User.user_id u <> user_id).
Proof.
  assert (Hgone : get_user_by_id (fst (delete_user db user_id)) user_id = None).
  { rewrite delete_user_state.
    destruct (get_user_by_id db user_id) eqn:E; [|exact E].
    unfold get_user_by_id, without_user. cbn [users].
    apply find_none_all. intros x Hx. now apply delete_where_In in Hx. }
  split; [exact Hgone|]. split; [|split].
  - unfold get_user_by_id in Hgone. unfold delete_user at 1. now rewrite Hgone.
  - intros other Hne. rewrite delete_user_state.
    destruct (get_user_by_id db user_id); [|reflexivity].
    unfold get_user_by_id, without_user, delete_where. cbn [users].
    apply find_filter. intros x Hx. apply Z.eqb_eq in Hx.
    apply negb_true_iff, Z.eqb_neq. congruence.
  - intros identifier credential u. rewrite delete_user_state.
    destruct (get_user_by_id db user_id) eqn:Eu.
    + unfold authenticate_user, without_user. cbn [users].
      destruct (find _ (delete_where _ _)) as [w|] eqn:E; [|discriminate].
      destruct (negb _); [discriminate|]. intros [= <-].
      apply find_some in E. destruct E as [E _]. apply delete_where_In in E.
      now rewrite Z.eqb_neq in E.
    + unfold authenticate_user.
      destruct (find _ (users db)) as [w|] eqn:E; [|discriminate].
      destruct (negb _); [discriminate|]. intros [= <-].
      apply find_some in E. destruct E as [E _]. split; [assumption|].
      apply Z.eqb_neq. apply (find_none _ _ Eu w E).
Qed.

(** X14.  Creating a user and deleting it again restores every table when the new
    id was unused: only the key sequence has moved on. *)
Theorem create_then_delete_user (db : Session) (user : UserCreate.t) :
  unused_user_id db (user_id_seq db) ->
  delete_user (fst (create_user db user)) (User.user_id (snd (create_user db user)))
  = (set_user_id_seq (user_id_seq db + 1) db, Some (snd (create_user db user))).
Proof.
  intros (Hu & Hc & Hm & Hl & Hcr & Hw & Hg & Ha & Hn & Hi).
  assert (Hfind : find (fun u => User.user_id u =? user_id_seq db)
                    (users db ++ [snd (create_user db user)])
                  = Some (snd (create_user db user))).
  { rewrite find_app_none.
    - cbn [find]. rewrite create_user_id, Z.eqb_refl. reflexivity.
    - apply find_none_all. intros u Hin. apply Z.eqb_neq. now apply Hu. }
  rewrite create_user_id, create_user_state. unfold delete_user.
  cbn [users set_challenge_members set_user_id_seq set_users].
  rewrite Hfind. rewrite create_user_id. read_tables.
  rewrite !delete_where_app.
  rewrite (delete_where_all_false _ (users db))
    by (intros x Hx; apply Z.eqb_neq; now apply Hu).
  rewrite (delete_where_all_false _ (challenges db))
    by (intros x Hx; apply Z.eqb_neq; now apply Hc).
  rewrite (delete_where_all_false _ (challenge_members db))
    by (intros x Hx; apply Z.eqb_neq; now apply Hm).
  rewrite (delete_where_all_false _ (mobility_logs db))
    by (intros x Hx; apply Z.eqb_neq; now apply Hl).
  rewrite (delete_where_all_false _ (credits_ledger db))
    by (intros x Hx; apply Z.eqb_neq; now apply Hcr).
  rewrite (delete_where_all_false _ (garden_watering_logs db))
    by (intros x Hx; apply Z.eqb_neq; now apply Hw).
  rewrite (delete_where_all_false _ (user_gardens db))
    by (intros x Hx; apply Z.eqb_neq; now apply Hg).
  rewrite (delete_where_all_false _ (user_achievements db))
    by (intros x Hx; apply Z.eqb_neq; now apply Ha).
  rewrite (delete_where_all_false _ (notifications db))
    by (intros x Hx; apply Z.eqb_neq; now apply Hn).
  rewrite (delete_where_all_false _ (ingest_raw db))
    by (intros x Hx; apply Z.eqb_neq; now apply Hi).
  rewrite (delete_where_all_true _ (map _ _)).
  - rewrite (delete_where_all_true _ [_]).
    + rewrite !app_nil_r. destruct db; reflexivity.
    + intros x [<-|[]]. rewrite create_user_id. apply Z.eqb_refl.
  - intros x Hx. apply in_map_iff in Hx. destruct Hx as (c & <- & _). cbn.
    apply Z.eqb_refl.
Qed.

Lemma create_then_delete_user_witness :
  unused_user_id empty_db (user_id_seq empty_db)
  /\ delete_user (fst (create_user empty_db ann))
       (User.user_id (snd (create_user empty_db ann)))
     = (set_user_id_seq (user_id_seq empty_db + 1) empty_db,
        Some (snd (create_user empty_db ann))).
Proof.
  assert (H : unused_user_id empty_db (user_id_seq empty_db)).
  { unfold unused_user_id, empty_db. cbn. repeat split; intros r []. }
  split; [exact H|]. exact (create_then_delete_user empty_db ann H).
Defined.

(** X15.  A new user is already a member of every PERSONAL challenge:
    [join_challenge] for such a challenge changes nothing and returns a
    membership row of the new user that the state holds. *)
Theorem create_user_then_join (db : Session) (user : UserCreate.t) (c : Challenge.t) :
  In c (challenges db) -> Challenge.scope c = PERSONAL ->
  fst (join_challenge (fst (create_user db user))
         (User.user_id (snd (create_user db user))) (Challenge.challenge_id c))
  = fst (create_user db user)
  /\ In (snd (join_challenge (fst (create_user db user))
                (User.user_id (snd (create_user db user))) (Challenge.challenge_id c)))
        (challenge_members (fst (create_user db user))).
Proof.
  intros Hin Hscope. rewrite create_user_id.
  destruct (find_some_exists (member_filter (user_id_seq db) (Challenge.challenge_id c))
              (challenge_members (fst (create_user db user)))) as [m Hm].
  { exists (ChallengeMember.mk (user_id_seq db) (Challenge.challenge_id c)
              ChallengeMember.is_completed_default).
    split.
    - rewrite create_user_state. cbn [challenge_members set_challenge_members].
      apply in_or_app. right. apply in_map_iff. exists c. split; [reflexivity|].
      apply filter_In. split; [assumption|]. now apply scope_eqb_eq.
    - apply member_filter_spec. now split. }
  unfold join_challenge. rewrite Hm. cbn [fst snd].
  split; [reflexivity|]. now apply find_some in Hm.
Qed.

Lemma create_user_then_join_witness :
  In (sample_challenge TRIP_COUNT (PyFloat.of_int 5))
    (challenges (db_with_challenge (sample_challenge TRIP_COUNT (PyFloat.of_int 5))))
  /\ Challenge.scope (sample_challenge TRIP_COUNT (PyFloat.of_int 5)) = PERSONAL
  /\ fst (join_challenge
            (fst (create_user
                    (db_with_challenge (sample_challenge TRIP_COUNT (PyFloat.of_int 5))) ann))
            (User.user_id
               (snd (create_user
                       (db_with_challenge (sample_challenge TRIP_COUNT (PyFloat.of_int 5)))
                       ann)))
            (Challenge.challenge_id (sample_challenge TRIP_COUNT (PyFloat.of_int 5))))
     = fst (create_user
              (db_with_challenge (sample_challenge TRIP_COUNT (PyFloat.of_int 5))) ann).
Proof.
  assert (H1 : In (sample_challenge TRIP_COUNT (PyFloat.of_int 5))
                 (challenges
                    (db_with_challenge (sample_challenge TRIP_COUNT (PyFloat.of_int 5)))))
    by (left; reflexivity).
  assert (H2 : Challenge.scope (sample_challenge TRIP_COUNT (PyFloat.of_int 5)) = PERSONAL)
    by reflexivity.
  split; [exact H1|]. split; [exact H2|].
  exact (proj1 (create_user_then_join _ ann _ H1 H2)).
Defined.

(** ** Progress across calls *)

(** The progress depends on the state only through the logs that count. *)
Lemma progress_depends_on_rows (db1 db2 : Session) (user_id : Z) (challenge : Challenge.t) :
  filter (query_filters user_id challenge) (mobility_logs db1)
  = filter (query_filters user_id challenge) (mobility_logs db2) ->
  calculate_challenge_progress db1 user_id challenge
  = calculate_challenge_progress db2 user_id challenge.
Proof.
  intros H. unfold calculate_challenge_progress, achieved_scalar. now rewrite H.
Qed.

Lemma query_filters_user (user_id : Z) (challenge : Challenge.t) (l : MobilityLog.t) :
  query_filters user_id challenge l = true -> MobilityLog.user_id l = user_id.
Proof.
  intros H. apply query_filters_spec in H. now destruct H.
Qed.

(** The logs that count after a log was created: those that counted, and
    the new log at the end if it counts. *)
Lemma create_mobility_log_rows (db : Session) (log : MobilityLogCreate.t)
    (db' : Session) (row : MobilityLog.t) (user_id : Z) (challenge : Challenge.t) :
  create_mobility_log db log = Ok (db', row) ->
  filter (query_filters user_id challenge) (mobility_logs db')
  = filter (query_filters user_id challenge) (mobility_logs db)
    ++ (if query_filters user_id challenge row then [row] else []).
Proof.
  intros H. apply create_mobility_log_state in H. destruct H as (-> & _).
  unfold with_log. read_tables. rewrite filter_app. reflexivity.
Qed.

Lemma run_progress (c : call) (db : Session) (user_id : Z) (challenge : Challenge.t) :
  touches_logs_of user_id c = false ->
  filter (query_filters user_id challenge) (mobility_logs (run c db))
  = filter (query_filters user_id challenge) (mobility_logs db).
Proof.
  intros H.
  destruct c as [user|uid|log|cid upd|cid|uid cid|uid cid|ch p uid|uid cid p];
    cbn [run touches_logs_of] in *.
  - now rewrite create_user_state.
  - rewrite delete_user_state. destruct (get_user_by_id db uid); [|reflexivity].
    unfold without_user, delete_where. read_tables.
    apply filter_filter_implied. intros l Hl. apply query_filters_user in Hl.
    apply negb_true_iff, Z.eqb_neq. apply Z.eqb_neq in H. congruence.
  - destruct (create_mobility_log db log) as [[db' row]|] eqn:E; [|reflexivity].
    rewrite (create_mobility_log_rows _ _ _ _ _ _ E).
    apply create_mobility_log_state in E. destruct E as (_ & _ & Hu & _).
    destruct (query_filters user_id challenge row) eqn:Eq; [|apply app_nil_r].
    apply query_filters_user in Eq. apply Z.eqb_neq in H. congruence.
  - unfold update_challenge. now destruct (find _ (challenges db)).
  - unfold delete_challenge. now destruct (find _ (challenges db)).
  - unfold join_challenge. now destruct (find _ (challenge_members db)).
  - unfold leave_challenge. now destruct (find _ (challenge_members db)).
  - destruct (update_challenge_status_if_completed_tables db ch p uid)
      as (_ & _ & -> & _). reflexivity.
  - unfold update_personal_challenge_progress.
    now destruct (find _ (challenge_members db)); [destruct (find _ (challenges db))|].
Qed.

(** X16.  The progress of a user changes only by a log created for that user or
    by the deletion of that user: a sequence of other calls leaves the
    progress of the user in every challenge as it was. *)
Theorem progress_frame
    (cs : list call) (db : Session) (user_id : Z) (challenge : Challenge.t) :
  (forall c, In c cs -> touches_logs_of user_id c = false) ->
  calculate_challenge_progress (run_all cs db) user_id challenge
  = calculate_challenge_progress db user_id challenge.
Proof.
  intros H. apply progress_depends_on_rows.
  unfold run_all. revert db. induction cs as [|c cs IH]; intros db; cbn [fold_left].
  - reflexivity.
  - rewrite IH by (intros c' Hc'; apply H; now right).
    apply run_progress. apply H. now left.
Qed.

Lemma progress_frame_witness :
  (forall c, In c [CreateMobilityLog
                     (MobilityLogCreate.mk 2 bike (PyFloat.of_int 3) 10 20 None None None);
                   JoinChallenge 1 1; DeleteUser 2] ->
             touches_logs_of 1 c = false)
  /\ calculate_challenge_progress
       (run_all [CreateMobilityLog
                   (MobilityLogCreate.mk 2 bike (PyFloat.of_int 3) 10 20 None None None);
                 JoinChallenge 1 1; DeleteUser 2]
          (db_with_rides 3 (PyFloat.of_int 2))) 1
       (sample_challenge TRIP_COUNT (PyFloat.of_int 5))
     = calculate_challenge_progress (db_with_rides 3 (PyFloat.of_int 2)) 1
         (sample_challenge TRIP_COUNT (PyFloat.of_int 5)).
Proof.
  assert (H : forall c,
             In c [CreateMobilityLog
                     (MobilityLogCreate.mk 2 bike (PyFloat.of_int 3) 10 20 None None None);
                   JoinChallenge 1 1; DeleteUser 2] ->
             touches_logs_of 1 c = false).
  { intros c [<-|[<-|[<-|[]]]]; reflexivity. }
  split; [exact H|]. exact (progress_frame _ _ 1 _ H).
Defined.

(** X17.  A log that was created counts once: when the returned log counts toward
    the challenge for the user, it is the last of the logs that count, and
    the number of trips has grown by one; when it does not count, the
    progress is as before. *)
Theorem create_mobility_log_counts_once
    (db : Session) (log : MobilityLogCreate.t) (db' : Session) (row : MobilityLog.t)
    (user_id : Z) (challenge : Challenge.t) :
  create_mobility_log db log = Ok (db', row) ->
  (counts_for user_id challenge row ->
   filter (query_filters user_id challenge) (mobility_logs db')
   = filter (query_filters user_id challenge) (mobility_logs db) ++ [row]
   /\ achieved TRIP_COUNT (filter (query_filters user_id challenge) (mobility_logs db'))
      = PyFloat.of_int
          (Z.of_nat (List.length
                       (filter (query_filters user_id challenge) (mobility_logs db))) + 1))
  /\ (~ counts_for user_id challenge row ->
      calculate_challenge_progress db' user_id challenge
      = calculate_challenge_progress db user_id challenge).
Proof.
  intros H. pose proof (create_mobility_log_rows _ _ _ _ user_id challenge H) as Hrows.
  split.
  - intros Hc. apply query_filters_spec in Hc. rewrite Hc in Hrows.
    split; [exact Hrows|]. rewrite Hrows. unfold achieved.
    rewrite length_app. cbn [List.length]. f_equal. lia.
  - intros Hc. apply progress_depends_on_rows. rewrite Hrows.
    destruct (query_filters user_id challenge row) eqn:E; [|apply app_nil_r].
    apply query_filters_spec in E. now destruct Hc.
Qed.

Lemma create_mobility_log_counts_once_witness :
  create_mobility_log (db_with_factor (PyFloat.of_int 120)) (ride (PyFloat.of_int 10))
  = Ok (with_log (db_with_factor (PyFloat.of_int 120))
          (logged (db_with_factor (PyFloat.of_int 120)) (ride (PyFloat.of_int 10))
             (PyFloat.of_int 1200) 12),
        logged (db_with_factor (PyFloat.of_int 120)) (ride (PyFloat.of_int 10))
          (PyFloat.of_int 1200) 12)
  /\ counts_for 1 (sample_challenge TRIP_COUNT (PyFloat.of_int 5))
       (logged (db_with_factor (PyFloat.of_int 120)) (ride (PyFloat.of_int 10))
          (PyFloat.of_int 1200) 12)
  /\ achieved TRIP_COUNT
       (filter (query_filters 1 (sample_challenge TRIP_COUNT (PyFloat.of_int 5)))
          (mobility_logs
             (with_log (db_with_factor (PyFloat.of_int 120))
                (logged (db_with_factor (PyFloat.of_int 120)) (ride (PyFloat.of_int 10))
                   (PyFloat.of_int 1200) 12))))
     = PyFloat.of_int
         (Z.of_nat
            (List.length
               (filter (query_filters 1 (sample_challenge TRIP_COUNT (PyFloat.of_int 5)))
                  (mobility_logs (db_with_factor (PyFloat.of_int 120))))) + 1).
Proof.
  assert (H1 : create_mobility_log (db_with_factor (PyFloat.of_int 120))
                 (ride (PyFloat.of_int 10))
               = Ok (with_log (db_with_factor (PyFloat.of_int 120))
                       (logged (db_with_factor (PyFloat.of_int 120))
                          (ride (PyFloat.of_int 10)) (PyFloat.of_int 1200) 12),
                     logged (db_with_factor (PyFloat.of_int 120))
                       (ride (PyFloat.of_int 10)) (PyFloat.of_int 1200) 12))
    by (vm_compute; reflexivity).
  assert (H2 : counts_for 1 (sample_challenge TRIP_COUNT (PyFloat.of_int 5))
                 (logged (db_with_factor (PyFloat.of_int 120)) (ride (PyFloat.of_int 10))
                    (PyFloat.of_int 1200) 12)).
  { unfold counts_for. cbn. repeat split; try lia. now left. }
  split; [exact H1|]. split; [exact H2|].
  exact (proj2 (proj1 (create_mobility_log_counts_once _ _ _ _ 1 _ H1) H2)).
Defined.

(** X18.  Without a log that counts the progress is [0.0], whatever the goal type
    and the target: nothing is raised, also for a target that is zero,
    negative, infinite or a NaN. *)
Theorem calculate_challenge_progress_no_logs
    (db : Session) (user_id : Z) (challenge : Challenge.t) :
  (forall l, In l (mobility_logs db) -> ~ counts_for user_id challenge l) ->
  calculate_challenge_progress db user_id challenge = Ok f0.
Proof.
  intros Hnone.
  assert (Hrows : filter (query_filters user_id challenge) (mobility_logs db) = []).
  { apply find_none_filter, find_none_all. intros l Hl.
    destruct (query_filters user_id challenge l) eqn:E; [|reflexivity].
    apply query_filters_spec in E. now destruct (Hnone l Hl). }
  unfold calculate_challenge_progress.
  assert (Ht : float_of match achieved_scalar db user_id challenge with
                        | None => Float f0
                        | Some v => v
                        end = f0).
  { rewrite achieved_scalar_spec, Hrows. unfold achieved.
    destruct (Challenge.goal_type challenge); reflexivity. }
  rewrite Ht.
  destruct (positive_float (Challenge.goal_target_value challenge)) eqn:Hp;
    [|reflexivity].
  destruct (positive_float_cases _ Hp) as [(m & e & ->)| ->]; reflexivity.
Qed.

Lemma calculate_challenge_progress_no_logs_witness :
  (forall l, In l (mobility_logs empty_db) ->
             ~ counts_for 1 (sample_challenge CO2_SAVED (PyFloat.of_int 5)) l)
  /\ calculate_challenge_progress empty_db 1 (sample_challenge CO2_SAVED (PyFloat.of_int 5))
     = Ok f0.
Proof.
  assert (H : forall l, In l (mobility_logs empty_db) ->
                        ~ counts_for 1 (sample_challenge CO2_SAVED (PyFloat.of_int 5)) l)
    by (intros l []).
  split; [exact H|]. exact (calculate_challenge_progress_no_logs _ 1 _ H).
Defined.

(** X19.  A target met exactly completes the challenge: when the achieved value
    equals a finite positive target, the progress is [100.0]; passing it to
    [update_challenge_status_if_completed] for an ACTIVE challenge with
    automatic completion that is a row of the table stores the challenge as
    COMPLETED, so that [get_challenge] returns it completed, and flags the
    memberships of the user in it. *)
Theorem target_met_completes (db : Session) (user_id : Z) (challenge : Challenge.t) :
  positive_float (Challenge.goal_target_value challenge) = true ->
  PyFloat.is_finite (Challenge.goal_target_value challenge) = true ->
  achieved (Challenge.goal_type challenge)
    (filter (query_filters user_id challenge) (mobility_logs db))
  = Challenge.goal_target_value challenge ->
  Challenge.completion_type challenge = AUTO ->
  Challenge.status challenge = ACTIVE ->
  get_challenge db (Challenge.challenge_id challenge) = Some challenge ->
  calculate_challenge_progress db user_id challenge = Ok f100
  /\ snd (update_challenge_status_if_completed db challenge f100 user_id)
     = Challenge.with_status COMPLETED challenge
  /\ get_challenge (fst (update_challenge_status_if_completed db challenge f100 user_id))
       (Challenge.challenge_id challenge)
     = Some (Challenge.with_status COMPLETED challenge)
  /\ (forall m,
         In m (challenge_members
                 (fst (update_challenge_status_if_completed db challenge f100 user_id))) ->
         ChallengeMember.user_id m = user_id ->
         ChallengeMember.challenge_id m = Challenge.challenge_id challenge ->
         ChallengeMember.is_completed m = true).
Proof.
  intros Hp Hfin Hmet Hauto Hactive Hrow.
  assert (Hprogress : calculate_challenge_progress db user_id challenge = Ok f100).
  { unfold calculate_challenge_progress. rewrite Hp, achieved_scalar_spec, Hmet.
    unfold PyFloat.truediv. rewrite (positive_float_not_zero _ Hp). cbn [bind].
    destruct (positive_float_cases _ Hp) as [(m & e & E)|E]; rewrite E in *.
    - rewrite div_self. reflexivity.
    - discriminate. }
  assert (Hge : PyFloat.ge f100 f100 = true) by reflexivity.
  pose proof (completed_state db challenge f100 user_id Hauto Hactive Hge) as Hstate.
  destruct (completed_challenges_rows db challenge) as (_ & _ & Hstored & _).
  unfold get_challenge in Hrow. pose proof (Hstored _ Hrow) as Hfind.
  rewrite Hfind in Hstate.
  split; [exact Hprogress|]. rewrite Hstate. cbn [fst snd].
  split; [reflexivity|]. split.
  - unfold get_challenge. read_tables. exact Hfind.
  - read_tables. intros m Hin Hu Hc.
    apply completion_flags in Hin. destruct Hin as [Hflag _].
    apply Hflag. apply member_filter_spec. now split.
Qed.

Lemma target_met_completes_witness :
  positive_float (Challenge.goal_target_value
                    (sample_challenge TRIP_COUNT (PyFloat.of_int 5))) = true
  /\ achieved TRIP_COUNT
       (filter (query_filters 1 (sample_challenge TRIP_COUNT (PyFloat.of_int 5)))
          (mobility_logs
             (set_challenges [sample_challenge TRIP_COUNT (PyFloat.of_int 5)]
                (db_with_rides 5 (PyFloat.of_int 2)))))
     = PyFloat.of_int 5
  /\ calculate_challenge_progress
       (set_challenges [sample_challenge TRIP_COUNT (PyFloat.of_int 5)]
          (db_with_rides 5 (PyFloat.of_int 2))) 1
       (sample_challenge TRIP_COUNT (PyFloat.of_int 5))
     = Ok f100
  /\ get_challenge
       (fst (update_challenge_status_if_completed
               (set_challenges [sample_challenge TRIP_COUNT (PyFloat.of_int 5)]
                  (db_with_rides 5 (PyFloat.of_int 2)))
               (sample_challenge TRIP_COUNT (PyFloat.of_int 5)) f100 1)) 1
     = Some (Challenge.with_status COMPLETED
               (sample_challenge TRIP_COUNT (PyFloat.of_int 5))).
Proof.
  assert (H1 : positive_float (Challenge.goal_target_value
                                 (sample_challenge TRIP_COUNT (PyFloat.of_int 5))) = true)
    by (vm_compute; reflexivity).
  assert (H2 : PyFloat.is_finite (Challenge.goal_target_value
                                    (sample_challenge TRIP_COUNT (PyFloat.of_int 5))) = true)
    by (vm_compute; reflexivity).
  assert (H3 : achieved (Challenge.goal_type (sample_challenge TRIP_COUNT (PyFloat.of_int 5)))
                 (filter (query_filters 1 (sample_challenge TRIP_COUNT (PyFloat.of_int 5)))
                    (mobility_logs
                       (set_challenges [sample_challenge TRIP_COUNT (PyFloat.of_int 5)]
                          (db_with_rides 5 (PyFloat.of_int 2)))))
               = Challenge.goal_target_value
                   (sample_challenge TRIP_COUNT (PyFloat.of_int 5)))
    by (vm_compute; reflexivity).
  assert (H4 : Challenge.completion_type (sample_challenge TRIP_COUNT (PyFloat.of_int 5))
               = AUTO) by reflexivity.
  assert (H5 : Challenge.status (sample_challenge TRIP_COUNT (PyFloat.of_int 5)) = ACTIVE)
    by reflexivity.
  assert (H6 : get_challenge
                 (set_challenges [sample_challenge TRIP_COUNT (PyFloat.of_int 5)]
                    (db_with_rides 5 (PyFloat.of_int 2)))
                 (Challenge.challenge_id (sample_challenge TRIP_COUNT (PyFloat.of_int 5)))
               = Some (sample_challenge TRIP_COUNT (PyFloat.of_int 5)))
    by (vm_compute; reflexivity).
  destruct (target_met_completes _ 1 _ H1 H2 H3 H4 H5 H6) as (G1 & _ & G3 & _).
  split; [exact H1|]. split; [exact H3|]. split; [exact G1|exact G3].
Defined.

(** X20.  The members of a deleted challenge stay in the membership table, but
    [update_personal_challenge_progress] returns [None] for each of them:
    it finds no challenge of the id. *)
Theorem delete_challenge_then_progress
    (db : Session) (challenge_id user_id : Z) (progress_increment : PyFloat.float) :
  update_personal_challenge_progress (fst (delete_challenge db challenge_id))
    user_id challenge_id progress_increment
  = (fst (delete_challenge db challenge_id), None)
  /\ find (member_filter user_id challenge_id)
       (challenge_members (fst (delete_challenge db challenge_id)))
     = find (member_filter user_id challenge_id) (challenge_members db).
Proof.
  assert (Hgone : find (fun c => Challenge.challenge_id c =? challenge_id)
                    (challenges (fst (delete_challenge db challenge_id))) = None).
  { unfold delete_challenge.
    destruct (find _ (challenges db)) as [c|] eqn:E; [|exact E].
    apply find_some in E. destruct E as [_ E]. apply Z.eqb_eq in E.
    cbn [fst]. read_tables. rewrite E.
    apply find_none_all. intros x Hx. now apply delete_where_In in Hx. }
  split.
  - unfold update_personal_challenge_progress. rewrite Hgone.
    now destruct (find _ (challenge_members _)).
  - unfold delete_challenge. now destruct (find _ (challenges db)).
Qed.

(** ** create_mobility_log: what it returns and what it raises *)




(** A ride of distance zero at an infinite rate: the product is a NaN. *)
Example create_mobility_log_nan :
  co2_saved_of (db_with_factor infinity) (ride f0) = S754_nan
  /\ create_mobility_log (db_with_factor infinity) (ride f0) = Raise ValueError.
Proof. split; vm_compute; reflexivity. Qed.
